(** * Pick_List: the container clean-up engine of [main.py]

    A shallow embedding of the reconciliation code of [main.py]
    ([get_prod_locations], [check_container_current_location],
    [log_request_to_history], [automated_container_cleanup],
    [manual_container_cleanup], [delete_request] and the two submission
    handlers that draw on the global [req_id] counter), followed by the
    properties of that code.

    Conventions of the embedding.
    - The two SQL tables are lists of rows inside a [World]; every statement
      that was executed and committed is also appended to a chronological
      [journal], so that "before" can be stated.
    - Everything the code obtains from outside (ERP replies, storage faults,
      clock readings) comes from an [Env] record.
    - Instants are integers counting microseconds (the resolution of
      Python's [datetime]); a [datetime] carries an optional UTC offset.
    - A storage fault is the fault of one statement ([storage_fault]). In the
      two passes and in [delete_request] the connection, the [SELECT] of the
      active requests and the commit that ends the deleting loop are taken
      to go through; where one of them raises, the code leaves through its
      handler (an [auto_cleanup_error] event, the error dictionary, status
      500) with the deletes of that run not committed. The statements about
      these functions are therefore either about what a run may remove or
      send, or conditional on the value it returns.
    - [await], logging and [asyncio.sleep] have no counterpart: handlers are
      run one after the other. *)

From Stdlib Require Import ZArith QArith List String Bool Lia Permutation.
From Stdlib Require Import DecimalString.
Import ListNotations.

Local Open Scope Z_scope.
Local Open Scope string_scope.
Local Open Scope list_scope.

(** ** Values *)

(** A Python [datetime]: the wall-clock reading in microseconds and, for an
    aware value, its offset from UTC in microseconds ([tzinfo]). *)
Record datetime := mk_datetime { wall : Z; tzinfo : option Z }.

(** [dt.astimezone(pytz.UTC).replace(tzinfo=None)] for an aware value. *)
Definition astimezone_utc_naive (dt : datetime) : Z :=
  match tzinfo dt with
  | Some offset => wall dt - offset
  | None => wall dt
  end.

(** A naive datetime as returned by the database driver. *)
Definition naive (t : Z) : datetime := mk_datetime t None.

(** What a call that may raise gives back. *)
Inductive result (A : Type) : Type :=
| Ok (a : A)
| Raised (msg : string).
Arguments Ok {A} a.
Arguments Raised {A} msg.

(** Python truthiness of an optional string ([None] and [''] are false). *)
Definition truthy (s : option string) : bool :=
  match s with
  | Some s => negb (s =? "")
  | None => false
  end.

(** [x in xs] on a list of strings. *)
Definition py_in (x : string) (xs : list string) : bool :=
  existsb (String.eqb x) xs.

(** [x or d] on an optional string. *)
Definition or_default (x : option string) (d : string) : string :=
  if truthy x then match x with Some s => s | None => d end else d.

(** [float(q) if q else 0.0]: [None] and a zero quantity both give zero. *)
Definition float_or_zero (q : option Q) : Q :=
  match q with
  | Some x => if Qeq_bool x 0 then 0%Q else x
  | None => 0%Q
  end.

(** ** Rows *)

(** The columns of [REQUESTS] that the code reads and writes. *)
Module Requests.
Record row := mk {
  req_id : Z;
  serial_no : string;
  part_no : string;
  revision : option string;
  quantity : option Q;
  location : string;
  deliver_to : string;
  req_time : datetime;
  master_unit_no : option string;
  request_type : option string
}.
End Requests.

(** The columns of [REQUESTS_HISTORY] written by [log_request_to_history]. *)
Module History.
Record row := mk {
  req_id : Z;
  serial_no : string;
  part_no : string;
  revision : string;
  quantity : Q;
  location : string;
  deliver_to : string;
  req_time : datetime;
  fulfilled_time : Z;
  fulfillment_duration_minutes : Z;
  fulfillment_type : string;
  current_location : string;
  request_type : option string
}.
End History.

(** An entry of [containers_to_remove]. *)
Module Container.
Record dict := mk {
  req_id : Z;
  serial_no : string;
  part_no : string;
  revision : option string;
  quantity : option Q;
  stored_location : string;
  current_location : string;
  deliver_to : string;
  req_time : datetime;
  request_type : option string
}.
End Container.

(** The payloads handed to [send_cleanup_notification]. *)
Record removed_summary := mk_summary {
  sum_serial_no : string;
  sum_current_location : string;
  sum_deliver_to : string
}.

Inductive notification :=
| auto_cleanup_complete (checked_requests removed_containers : nat)
    (containers_removed : list removed_summary) (timestamp : Z)
| auto_cleanup_error (error : string) (timestamp : Z).

(** ** Storage *)

(** The SQL statements the code issues against the two tables. *)
Inductive statement :=
| InsertRequest (r : Requests.row)
| InsertHistory (h : History.row)
| DeleteRequestById (k : Z)
| DeleteRequestBySerial (s : string).

Record World := mk_world {
  REQUESTS : list Requests.row;
  REQUESTS_HISTORY : list History.row;
  journal : list statement;
  sent : list notification
}.

(** ** Environment *)

(** An HTTP exchange with the ERP as the client code distinguishes it. *)
Inductive reply (B : Type) : Type :=
| Timeout
| RequestError
| OtherError (msg : string)
| Response (status_code : Z) (body : B).
Arguments Timeout {B}.
Arguments RequestError {B}.
Arguments OtherError {B} msg.
Arguments Response {B} status_code body.

(** Body of the production-location data source. *)
Inductive prod_body :=
| ProdNotJson
| ProdNoTables
| ProdMalformed
| ProdTable (locations : list string).

(** Body of the container-by-serial data source; a row is reduced to the
    value of its [Location] column. *)
Inductive container_body :=
| ContNotJson
| ContNoTables
| ContMalformed (msg : string)
| ContTable (rows : list (option string)).

(** A container of a master unit as the ERP lists it (the key lookup and
    the listing taken together; an empty list when either fails), in the
    order the listing is sorted into, by [Add_Date] and then [Serial_No]. *)
Record master_unit_container := mk_mu_container {
  Serial_No : string;
  Part_No : string;
  Quantity : Q;
  Location : string
}.

Record Env := mk_env {
  erp_prod_locations : reply prod_body;
  erp_container : string -> reply container_body;
  erp_master_unit : string -> list master_unit_container;
  (** [Some msg]: executing the statement raises [msg]. *)
  storage_fault : statement -> option string;
  (** [datetime.utcnow()] as read while the request with this id is logged. *)
  utcnow : Z -> Z;
  (** [datetime.now()] as read for an event's timestamp. *)
  now : Z;
  (** Reading the serial numbers of [REQUESTS] for a master-unit listing
      raises (the connection or the [SELECT]). *)
  requests_read_fails : bool
}.

(** ** The storage engine *)

Definition has_req_id (k : Z) (r : Requests.row) : bool :=
  Z.eqb (Requests.req_id r) k.

Definition has_serial_no (s : string) (r : Requests.row) : bool :=
  String.eqb (Requests.serial_no r) s.

(** The effect of a statement once it has gone through. *)
Definition apply_statement (s : statement) (w : World) : World :=
  let tables :=
    match s with
    | InsertRequest r => (REQUESTS w ++ [r], REQUESTS_HISTORY w)
    | InsertHistory h => (REQUESTS w, REQUESTS_HISTORY w ++ [h])
    | DeleteRequestById k =>
        (filter (fun r => negb (has_req_id k r)) (REQUESTS w), REQUESTS_HISTORY w)
    | DeleteRequestBySerial s' =>
        (filter (fun r => negb (has_serial_no s' r)) (REQUESTS w), REQUESTS_HISTORY w)
    end in
  mk_world (fst tables) (snd tables) (journal w ++ [s]) (sent w).

(** Modelled from the spec: the declaration of the [REQUESTS] table is not
    part of the source. The spec describes the active store as "keyed by a
    process-unique integer id", so [req_id] is taken to be the table's key:
    inserting a row whose [req_id] is already present raises. Nothing is
    assumed about the other columns; in particular [serial_no] may repeat. *)
Definition violates_key (s : statement) (w : World) : bool :=
  match s with
  | InsertRequest r => existsb (has_req_id (Requests.req_id r)) (REQUESTS w)
  | _ => false
  end.

(** [cursor.execute(...)] followed by its commit: all or nothing. *)
Definition execute (env : Env) (s : statement) (w : World) : result World :=
  match storage_fault env s with
  | Some msg => Raised msg
  | None =>
      if violates_key s w then Raised "Violation of PRIMARY KEY constraint"
      else Ok (apply_statement s w)
  end.

(** The key constraint as a property of a table. *)
Definition keyed (rows : list Requests.row) : Prop :=
  NoDup (map Requests.req_id rows).

(** [ORDER BY req_time DESC]. *)
Fixpoint insert_desc (r : Requests.row) (l : list Requests.row) : list Requests.row :=
  match l with
  | [] => [r]
  | x :: l' =>
      if (wall (Requests.req_time x) <? wall (Requests.req_time r))%Z
      then r :: l
      else x :: insert_desc r l'
  end.

Definition order_by_req_time_desc (l : list Requests.row) : list Requests.row :=
  fold_right insert_desc [] l.

(** [SELECT ... FROM REQUESTS ORDER BY req_time DESC] and [fetchall]. *)
Definition select_active_requests (w : World) : list Requests.row :=
  order_by_req_time_desc (REQUESTS w).

(** ** The notification channel *)

(** [send_cleanup_notification] is observed at its call: the payload is
    recorded in [sent]; the fan-out over the socket registry is not part of
    the model. *)
Definition send_cleanup_notification (n : notification) (w : World) : World :=
  mk_world (REQUESTS w) (REQUESTS_HISTORY w) (journal w) (sent w ++ [n]).

(** ** The ERP clients *)

Definition get_prod_locations (env : Env) : result (list string) :=
  match erp_prod_locations env with
  | Timeout => Ok []
  | RequestError => Ok []
  | OtherError msg => Raised msg
  | Response status_code body =>
      if negb (Z.eqb status_code 200) then Ok []
      else
        match body with
        | ProdNotJson => Ok []
        | ProdNoTables => Ok []
        | ProdMalformed => Ok []
        | ProdTable locations => Ok locations
        end
  end.

Definition get_container_by_serial_no (env : Env) (serial_no : string)
  : result (list (option string)) :=
  match erp_container env serial_no with
  | Timeout => Ok []
  | RequestError => Ok []
  | OtherError msg => Raised msg
  | Response status_code body =>
      if negb (Z.eqb status_code 200) then Ok []
      else
        match body with
        | ContNotJson => Ok []
        | ContNoTables => Ok []
        | ContMalformed msg => Raised msg
        | ContTable rows => Ok rows
        end
  end.

Definition check_container_current_location (env : Env) (serial_no : string)
  : option string :=
  match get_container_by_serial_no env serial_no with
  | Ok (first :: _) => first
  | Ok [] => None
  | Raised _ => None
  end.

(** ** The audit writer *)

Definition microseconds_per_minute : Z := 60000000.

(** [int((fulfilled_time - req_time_utc).total_seconds() / 60)]: the span is
    an exact number of microseconds and [int] truncates towards zero. The
    two floating-point divisions are taken as exact here. *)
Definition duration_minutes (fulfilled_time req_time_utc : Z) : Z :=
  Z.quot (fulfilled_time - req_time_utc) microseconds_per_minute.

Definition req_time_utc (req_time : datetime) : Z :=
  match tzinfo req_time with
  | None => wall req_time
  | Some _ => astimezone_utc_naive req_time
  end.

(** The row that [log_request_to_history] inserts. *)
Definition history_row (env : Env) (req_id : Z)
  (serial_no part_no revision : string) (quantity : Q)
  (location deliver_to : string) (req_time : datetime)
  (current_location fulfillment_type : string) (request_type : option string)
  : History.row :=
  let fulfilled_time := utcnow env req_id in
  History.mk req_id serial_no part_no revision quantity location deliver_to
    req_time fulfilled_time
    (duration_minutes fulfilled_time (req_time_utc req_time))
    fulfillment_type current_location request_type.

Definition log_request_to_history (env : Env) (req_id : Z)
  (serial_no part_no revision : string) (quantity : Q)
  (location deliver_to : string) (req_time : datetime)
  (current_location fulfillment_type : string) (request_type : option string)
  (w : World) : bool * World :=
  match execute env
          (InsertHistory
             (history_row env req_id serial_no part_no revision quantity
                location deliver_to req_time current_location fulfillment_type
                request_type)) w with
  | Ok w' => (true, w')
  | Raised _ => (false, w)
  end.

(** ** The clean-up passes *)

Definition is_put_back (r : Requests.row) : bool :=
  match Requests.request_type r with
  | Some t => t =? "PUT_BACK"
  | None => false
  end.

(** The dictionary appended to [containers_to_remove] by the scheduled pass. *)
Definition flagged_entry (r : Requests.row) (current_location : string)
  : Container.dict :=
  Container.mk (Requests.req_id r) (Requests.serial_no r) (Requests.part_no r)
    (Requests.revision r) (Requests.quantity r) (Requests.location r)
    current_location (Requests.deliver_to r) (Requests.req_time r)
    (Requests.request_type r).

(** [container_info] of the manual pass: the quantity is already converted
    ([float(quantity) if quantity is not None else 0.0]); [req_time] goes
    through [isoformat] here and [fromisoformat] before the history write,
    which gives the same datetime back. *)
Definition container_info (r : Requests.row) (current_location : string)
  : Container.dict :=
  Container.mk (Requests.req_id r) (Requests.serial_no r) (Requests.part_no r)
    (Requests.revision r)
    (Some match Requests.quantity r with Some q => q | None => 0%Q end)
    (Requests.location r) current_location (Requests.deliver_to r)
    (Requests.req_time r) (Requests.request_type r).

(** The first loop of both passes: put-backs are skipped before any lookup;
    a request is flagged when the ERP gives a non-empty location that is one
    of the production locations. [entry] builds the appended dictionary. *)
Fixpoint flag_requests (entry : Requests.row -> string -> Container.dict)
  (env : Env) (prod_locations : list string)
  (active_requests : list Requests.row) : list Container.dict :=
  match active_requests with
  | [] => []
  | r :: rest =>
      if is_put_back r then flag_requests entry env prod_locations rest
      else
        let current_location :=
          check_container_current_location env (Requests.serial_no r) in
        match current_location with
        | Some loc =>
            if truthy current_location && py_in loc prod_locations
            then entry r loc :: flag_requests entry env prod_locations rest
            else flag_requests entry env prod_locations rest
        | None => flag_requests entry env prod_locations rest
        end
  end.

(** How the body of the second loop ends for one container. *)
Inductive outcome :=
| Deleted
| HistoryNotLogged
| DeleteRaised (msg : string).

(** The body of the second loop, shared by both passes up to
    [fulfillment_type]: log to history, and delete only if that succeeded. *)
Definition retire (env : Env) (fulfillment_type : string)
  (container : Container.dict) (w : World) : outcome * World :=
  let (history_logged, w1) :=
    log_request_to_history env
      (Container.req_id container)
      (Container.serial_no container)
      (Container.part_no container)
      (or_default (Container.revision container) "")
      (float_or_zero (Container.quantity container))
      (Container.stored_location container)
      (Container.deliver_to container)
      (Container.req_time container)
      (Container.current_location container)
      fulfillment_type
      (Container.request_type container) w in
  if history_logged then
    match execute env (DeleteRequestById (Container.req_id container)) w1 with
    | Ok w2 => (Deleted, w2)
    | Raised msg => (DeleteRaised msg, w1)
    end
  else (HistoryNotLogged, w1).

(** [for container in containers_to_remove: ...] *)
Fixpoint retire_all (env : Env) (fulfillment_type : string)
  (containers_to_remove : list Container.dict) (w : World)
  : list outcome * World :=
  match containers_to_remove with
  | [] => ([], w)
  | container :: rest =>
      let (o, w1) := retire env fulfillment_type container w in
      let (os, w2) := retire_all env fulfillment_type rest w1 in
      (o :: os, w2)
  end.

Definition is_deleted (o : outcome) : bool :=
  match o with Deleted => true | _ => false end.

(** The counter [successful_deletions] of the scheduled pass. *)
Definition successful_deletions (os : list outcome) : nat :=
  List.length (filter is_deleted os).

Definition summary (c : Container.dict) : removed_summary :=
  mk_summary (Container.serial_no c) (Container.current_location c)
    (Container.deliver_to c).

(** The literal [10] of the safety check; the pass does not consult
    [AppConfig.CLEANUP_SAFETY_LIMIT]. *)
Definition safety_limit : nat := 10.

(** The scheduled pass. An empty list of production locations ends it
    without an event; so does a list of flagged containers longer than the
    safety limit. *)
Definition automated_container_cleanup (env : Env) (w : World) : World :=
  match get_prod_locations env with
  | Raised msg => send_cleanup_notification (auto_cleanup_error msg (now env)) w
  | Ok [] => w
  | Ok prod_locations =>
      let active_requests := select_active_requests w in
      let containers_to_remove :=
        flag_requests flagged_entry env prod_locations active_requests in
      let completion :=
        auto_cleanup_complete (List.length active_requests)
          (List.length containers_to_remove) (map summary containers_to_remove)
          (now env) in
      match containers_to_remove with
      | [] => send_cleanup_notification completion w
      | _ :: _ =>
          if (safety_limit <? List.length containers_to_remove)%nat then w
          else
            let (_, w1) := retire_all env "auto_cleanup" containers_to_remove w in
            send_cleanup_notification completion w1
      end
  end.

(** The dictionary returned by [manual_container_cleanup]. *)
Record results := mk_results {
  status : string;
  checked_requests : nat;
  removed_containers : nat;
  prod_locations : list string;
  containers_removed : list Container.dict;
  errors : list string
}.

(** The early error return carries a message and two zero counts. *)
Inductive manual_return :=
| Results (r : results)
| ErrorReturn (message : string).

(** The entry of [results['errors']] for one container, if any. *)
Definition error_of (c : Container.dict) (o : outcome) : list string :=
  match o with
  | Deleted => []
  | HistoryNotLogged =>
      [String.append "Failed to log container "
         (String.append (Container.serial_no c) " to history, skipping deletion")]
  | DeleteRaised msg =>
      [String.append "Error removing container "
         (String.append (Container.serial_no c) (String.append ": " msg))]
  end.

Fixpoint errors_of (cs : list Container.dict) (os : list outcome) : list string :=
  match cs, os with
  | c :: cs', o :: os' => error_of c o ++ errors_of cs' os'
  | _, _ => []
  end.

(** The manual pass: no safety limit, and the outcome of every container
    is collected in [errors]. [ErrorReturn] is the dictionary with status
    ['error'], returned here when the production fetch raises. *)
Definition manual_container_cleanup (env : Env) (w : World)
  : manual_return * World :=
  match get_prod_locations env with
  | Raised msg =>
      (ErrorReturn (String.append "Error fetching production locations: " msg), w)
  | Ok prod_locations =>
      let active_requests := select_active_requests w in
      let containers_to_remove :=
        flag_requests container_info env prod_locations active_requests in
      let (os, w1) := retire_all env "manual_cleanup" containers_to_remove w in
      (Results
         (mk_results "success" (List.length active_requests)
            (List.length containers_to_remove) prod_locations containers_to_remove
            (errors_of containers_to_remove os)),
       w1)
  end.

(** ** Manual deletion *)

(** A handler's answer: the status code and the message (or detail). *)
Inductive http_response :=
| respond (status_code : Z) (message : string).

(** [DELETE /api/requests/{serial_no}]: the first row found under the
    serial number is logged to history, and the delete is by serial
    number. *)
Definition delete_request (env : Env) (serial_no : string) (w : World)
  : http_response * World :=
  match find (has_serial_no serial_no) (REQUESTS w) with
  | None => (respond 404 "Request not found", w)
  | Some request_data =>
      let (history_logged, w1) :=
        log_request_to_history env
          (Requests.req_id request_data)
          (Requests.serial_no request_data)
          (Requests.part_no request_data)
          (or_default (Requests.revision request_data) "")
          (float_or_zero (Requests.quantity request_data))
          (Requests.location request_data)
          (Requests.deliver_to request_data)
          (Requests.req_time request_data)
          "Unknown (Manual Delete)"
          "manual_delete"
          (Some (or_default (Requests.request_type request_data) "PICK_UP")) w in
      (* a failed history write is only warned about: the delete goes ahead *)
      match execute env (DeleteRequestBySerial serial_no) w1 with
      | Ok w2 => (respond 200 "Request deleted successfully", w2)
      | Raised _ => (respond 500 "Internal server error", w1)
      end
  end.

(** ** Submission *)

(** The module-level state of the process: [req_id = 0] at every start. *)
Record Globals := mk_globals { req_id : Z }.

Definition startup : Globals := mk_globals 0.

(** The JSON body of a submission. [data_req_time] is [None] when the string
    does not parse; [data_request_type] is [None] when the key is absent. *)
Record submission := mk_submission {
  data_req_time : option datetime;
  data_revision : option string;
  data_quantity : option Q;
  data_location : string;
  data_workcenter : string;
  data_master_unit_no : option string;
  data_request_type : option (option string)
}.

(** The parsed [req_time] normalised to a naive UTC value, with the current
    UTC time as fallback. *)
Definition submitted_req_time (env : Env) (g : Globals) (data : submission)
  : datetime :=
  match data_req_time data with
  | Some req_time => naive (req_time_utc req_time)
  | None => naive (utcnow env (req_id g))
  end.

(** [data.get('request_type', 'PICK_UP')] *)
Definition submitted_request_type (data : submission) : option string :=
  match data_request_type data with
  | Some t => t
  | None => Some "PICK_UP"
  end.

(** The insert shared by both handlers: the row is stored under the current
    value of the counter, which is incremented only after a successful
    insert. *)
Definition insert_request (env : Env) (row : Requests.row) (g : Globals)
  (w : World) : bool * Globals * World :=
  match execute env (InsertRequest row) w with
  | Ok w' => (true, mk_globals (req_id g + 1), w')
  | Raised _ => (false, g, w)
  end.

(** [POST /part/{part_no}/{serial_no}]. The later handler of the same name,
    [POST /{serial_no}], only queries the ERP and leaves the counter alone. *)
Definition request_serial_no (env : Env) (part_no serial_no : string)
  (data : submission) (g : Globals) (w : World)
  : http_response * Globals * World :=
  let row :=
    Requests.mk (req_id g) serial_no part_no (data_revision data)
      (data_quantity data) (data_location data) (data_workcenter data)
      (submitted_req_time env g data) (data_master_unit_no data)
      (submitted_request_type data) in
  match insert_request env row g w with
  | (true, g', w') => (respond 200 "Success", g', w')
  | (false, g', w') => (respond 200 "Error", g', w')
  end.

(** [get_containers_by_master_unit]: the ERP listing, marked with
    [isRequested] against the serial numbers in [REQUESTS], without the
    containers whose location starts with [J-B]. When reading [REQUESTS]
    raises, the handler of that [try] block sets [isRequested] to [False]
    for every container. *)
Definition get_containers_by_master_unit (env : Env) (master_unit : string)
  (w : World) : list (master_unit_container * bool) :=
  let existing_serials := map Requests.serial_no (REQUESTS w) in
  let isRequested (c : master_unit_container) :=
    if requests_read_fails env then false
    else py_in (Serial_No c) existing_serials in
  filter (fun c => negb (String.prefix "J-B" (Location (fst c))))
    (map (fun c => (c, isRequested c)) (erp_master_unit env master_unit)).

(** [sum(float(c.get('Quantity', 0)) for c in ...)], the floating-point
    additions taken as exact. *)
Definition Qsum (l : list Q) : Q := fold_right Qplus 0%Q l.

Fixpoint join (sep : string) (l : list string) : string :=
  match l with
  | [] => ""
  | [x] => x
  | x :: rest => String.append x (String.append sep (join sep rest))
  end.

(** [location_str]: the distinct locations joined, or the first of them and
    a count when there are more than three. The order of a Python [set] is
    not specified; the order left by [nodup] stands for it. *)
Definition location_str (locations : list string) : string :=
  let locations := nodup string_dec locations in
  if (List.length locations <=? 3)%nat then join ", " locations
  else
    String.append (hd "" locations)
      (String.append " (+"
         (String.append
            (NilEmpty.string_of_uint (Nat.to_uint (List.length locations - 1)))
            " more)")).

(** [POST /api/request-master-unit/{master_unit}]. The keys of a
    [submission] are present, so [data.get('revision', '')] is the value
    sent, [None] for a JSON [null]. *)
Definition request_master_unit (env : Env) (master_unit : string)
  (data : submission) (g : Globals) (w : World)
  : http_response * Globals * World :=
  let containers := get_containers_by_master_unit env master_unit w in
  match containers with
  | [] => (respond 404 "No containers found in master unit", g, w)
  | _ :: _ =>
      let available_containers :=
        map fst (filter (fun c => negb (snd c)) containers) in
      match available_containers with
      | [] => (respond 400 "All containers already requested", g, w)
      | first_container :: _ =>
          let total_quantity := Qsum (map Quantity available_containers) in
          let row :=
            Requests.mk (req_id g) (String.append "MU-" master_unit)
              (Part_No first_container)
              (data_revision data)
              (Some total_quantity)
              (location_str (map Location available_containers))
              (data_workcenter data) (submitted_req_time env g data)
              (Some master_unit) (submitted_request_type data) in
          match insert_request env row g w with
          | (true, g', w') => (respond 200 "Success", g', w')
          | (false, g', w') => (respond 500 "Error", g', w')
          end
      end
  end.

(** ** A process lifetime *)

(** The handlers and the scheduled job, as calls served one after the
    other. *)
Inductive call :=
| POST_part_serial (part_no serial_no : string) (data : submission)
| POST_request_master_unit (master_unit : string) (data : submission)
| DELETE_api_requests (serial_no : string)
| POST_cleanup_manual
| scheduled_cleanup.

Definition serve (env : Env) (c : call) (s : Globals * World)
  : Globals * World :=
  let (g, w) := s in
  match c with
  | POST_part_serial part_no serial_no data =>
      let '(_, g', w') := request_serial_no env part_no serial_no data g w in
      (g', w')
  | POST_request_master_unit master_unit data =>
      let '(_, g', w') := request_master_unit env master_unit data g w in
      (g', w')
  | DELETE_api_requests serial_no => (g, snd (delete_request env serial_no w))
  | POST_cleanup_manual => (g, snd (manual_container_cleanup env w))
  | scheduled_cleanup => (g, automated_container_cleanup env w)
  end.

(** Calls served in order, each under the environment of its moment. *)
Fixpoint lifetime (calls : list (Env * call)) (s : Globals * World)
  : Globals * World :=
  match calls with
  | [] => s
  | (env, c) :: rest => lifetime rest (serve env c s)
  end.

(** A restart: the tables persist, the module-level state starts afresh. *)
Definition restart (s : Globals * World) : Globals * World :=
  (startup, snd s).

(** ** Notions used in the statements *)

(** The history row that [retire] writes for a container. *)
Definition history_of (env : Env) (fulfillment_type : string)
  (c : Container.dict) : History.row :=
  history_row env (Container.req_id c) (Container.serial_no c)
    (Container.part_no c) (or_default (Container.revision c) "")
    (float_or_zero (Container.quantity c)) (Container.stored_location c)
    (Container.deliver_to c) (Container.req_time c)
    (Container.current_location c) fulfillment_type (Container.request_type c).

Definition goes_through (env : Env) (s : statement) : bool :=
  match storage_fault env s with
  | None => true
  | Some _ => false
  end.

(** The statements that [retire] gets executed for a container. *)
Definition retire_statements (env : Env) (fulfillment_type : string)
  (c : Container.dict) : list statement :=
  let h := InsertHistory (history_of env fulfillment_type c) in
  let d := DeleteRequestById (Container.req_id c) in
  if goes_through env h
  then h :: (if goes_through env d then [d] else [])
  else [].

Definition apply_all (ss : list statement) (w : World) : World :=
  fold_left (fun w s => apply_statement s w) ss w.

(** Both the history write and the delete of the container go through. *)
Definition deletable (env : Env) (fulfillment_type : string)
  (c : Container.dict) : bool :=
  goes_through env (InsertHistory (history_of env fulfillment_type c))
  && goes_through env (DeleteRequestById (Container.req_id c)).

(** The row is not hit by the delete of any deletable container. *)
Definition survives (env : Env) (fulfillment_type : string)
  (cs : list Container.dict) (r : Requests.row) : bool :=
  negb (existsb (fun c => deletable env fulfillment_type c
                          && has_req_id (Container.req_id c) r) cs).

(** Between [w] and [w'] the journal gained a history insert for the row's
    [req_id] and [serial_no], directly followed by the delete of that
    [req_id], and the inserted record is in the history table of [w']. *)
Definition audited_removal (w w' : World) (r : Requests.row) : Prop :=
  exists pre post h,
    journal w' =
      journal w ++ pre
        ++ InsertHistory h :: DeleteRequestById (Requests.req_id r) :: post
    /\ History.req_id h = Requests.req_id r
    /\ History.serial_no h = Requests.serial_no r
    /\ In h (REQUESTS_HISTORY w').


(** The UTC instant that a datetime denotes, written out on its own and not
    through the conversions of the code: the wall-clock reading less the
    offset from UTC, a value without offset being read as UTC. *)
Definition utc_instant (dt : datetime) : Z :=
  wall dt - match tzinfo dt with Some offset => offset | None => 0 end.

(** The ERP answers the same in both environments. *)
Definition same_oracle (env1 env2 : Env) : Prop :=
  erp_prod_locations env1 = erp_prod_locations env2
  /\ forall serial_no, erp_container env1 serial_no = erp_container env2 serial_no.

(** The storage lets nothing through in [env2] that it did not let through
    in [env1]: a container that can be retired in [env2] could be in [env1]. *)
Definition no_healthier (env1 env2 : Env) : Prop :=
  forall ft c, deletable env2 ft c = true -> deletable env1 ft c = true.

(** The history row that [delete_request] writes for the row it found. *)
Definition manual_delete_row (env : Env) (r : Requests.row) : History.row :=
  history_row env (Requests.req_id r) (Requests.serial_no r)
    (Requests.part_no r) (or_default (Requests.revision r) "")
    (float_or_zero (Requests.quantity r)) (Requests.location r)
    (Requests.deliver_to r) (Requests.req_time r) "Unknown (Manual Delete)"
    "manual_delete" (Some (or_default (Requests.request_type r) "PICK_UP")).

(** What [delete_request] gets executed once it has found the row: the
    history insert if it goes through, then the delete in either case. *)
Definition manual_delete_statements (env : Env) (serial_no : string)
  (r : Requests.row) : list statement :=
  (if goes_through env (InsertHistory (manual_delete_row env r))
   then [InsertHistory (manual_delete_row env r)] else [])
  ++ [DeleteRequestBySerial serial_no].

Definition is_delete (s : statement) : bool :=
  match s with
  | DeleteRequestById _ => true
  | DeleteRequestBySerial _ => true
  | _ => false
  end.

(** The ids under which rows were inserted into [REQUESTS], in order. *)
Fixpoint inserted_ids (j : list statement) : list Z :=
  match j with
  | [] => []
  | InsertRequest r :: rest => Requests.req_id r :: inserted_ids rest
  | _ :: rest => inserted_ids rest
  end.

(** [first; first + 1; ...], [n] of them. *)
Fixpoint consecutive (first : Z) (n : nat) : list Z :=
  match n with
  | O => []
  | S n' => first :: consecutive (first + 1) n'
  end.

(** What the dictionary builders of both passes keep of the row. *)
Definition keeps_identity (entry : Requests.row -> string -> Container.dict)
  : Prop :=
  forall r loc,
    Container.req_id (entry r loc) = Requests.req_id r
    /\ Container.serial_no (entry r loc) = Requests.serial_no r
    /\ Container.request_type (entry r loc) = Requests.request_type r.

(** What the scheduled pass flags, and what it goes on to retire (nothing
    when the safety limit is exceeded). *)
Definition flagged_by_scheduled (env : Env) (w : World) : list Container.dict :=
  match get_prod_locations env with
  | Ok prod_locations =>
      flag_requests flagged_entry env prod_locations (select_active_requests w)
  | Raised _ => []
  end.

Definition retired_by_scheduled (env : Env) (w : World) : list Container.dict :=
  if (safety_limit <? List.length (flagged_by_scheduled env w))%nat then []
  else flagged_by_scheduled env w.

Definition flagged_by_manual (env : Env) (w : World) : list Container.dict :=
  match get_prod_locations env with
  | Ok prod_locations =>
      flag_requests container_info env prod_locations (select_active_requests w)
  | Raised _ => []
  end.

(** ** Sample inputs *)

Definition sample_prod_locations : list string := ["PROD-A"; "PROD-B"].

(** [S-WH] is still in the warehouse, the lookup of [S-LOST] times out,
    every other serial number is reported in [PROD-A]. *)
Definition sample_lookup (serial_no : string) : reply container_body :=
  if serial_no =? "S-WH" then Response 200 (ContTable [Some "WH-1"])
  else if serial_no =? "S-LOST" then Timeout
  else Response 200 (ContTable [Some "PROD-A"]).

Definition no_fault (s : statement) : option string := None.

Definition history_down (s : statement) : option string :=
  match s with
  | InsertHistory _ => Some "connection lost"
  | _ => None
  end.

Definition sample_clock (k : Z) : Z := 600000000.

Definition healthy_env : Env :=
  mk_env (Response 200 (ProdTable sample_prod_locations)) sample_lookup
    (fun _ => []) no_fault sample_clock 600000000 false.

Definition history_down_env : Env :=
  mk_env (Response 200 (ProdTable sample_prod_locations)) sample_lookup
    (fun _ => []) history_down sample_clock 600000000 false.

Definition prod_timeout_env : Env :=
  mk_env Timeout sample_lookup (fun _ => []) no_fault sample_clock 600000000
    false.

Definition sample_row (k : Z) (serial_no request_type : string) : Requests.row :=
  Requests.mk k serial_no "P-100" (Some "A") (Some 5%Q) "WH-1" "WC-7"
    (naive 0) None (Some request_type).

Definition pick_up (k : Z) (serial_no : string) : Requests.row :=
  sample_row k serial_no "PICK_UP".

Definition put_back (k : Z) (serial_no : string) : Requests.row :=
  sample_row k serial_no "PUT_BACK".

Definition world_of (rows : list Requests.row) : World :=
  mk_world rows [] [] [].

Definition one_request : World := world_of [pick_up 0 "S1001"].

Definition mixed_requests : World :=
  world_of [pick_up 0 "S1001"; put_back 1 "S1002"; pick_up 2 "S-WH";
            pick_up 3 "S-LOST"].

(** Eleven pick-ups [S0] ... [S10], all reported in production. *)
Definition eleven_requests : World :=
  world_of
    (map (fun n => pick_up (Z.of_nat n)
                     (String.append "S" (NilEmpty.string_of_uint (Nat.to_uint n))))
       (seq 0 11)).



Definition sample_submission : submission :=
  mk_submission (Some (naive 0)) (Some "A") (Some 5%Q) "WH-1" "WC-7" None None.

(** ** The manual trigger *)

(** [POST /api/cleanup/manual]: the status code is 500 when the returned
    dictionary has status ['error'], and 200 otherwise. *)
Definition trigger_manual_cleanup (env : Env) (w : World)
  : Z * manual_return * World :=
  let (results, w') := manual_container_cleanup env w in
  match results with
  | ErrorReturn _ => (500, results, w')
  | Results r => if status r =? "error" then (500, results, w')
                 else (200, results, w')
  end.

(** ** Further notions *)

(** The rows of the history inserts among the statements, in order. *)
Definition history_inserts (ss : list statement) : list History.row :=
  flat_map (fun s => match s with InsertHistory h => [h] | _ => [] end) ss.

(** The storage lets the history insert of the container through. *)
Definition history_goes_through (env : Env) (ft : string) (c : Container.dict)
  : bool :=
  goes_through env (InsertHistory (history_of env ft c)).

(** Every history insert for the given [req_id] fails. *)
Definition history_fails_for (env : Env) (k : Z) : Prop :=
  forall h, History.req_id h = k -> storage_fault env (InsertHistory h) <> None.

(** ** Further sample inputs *)

(** The history insert fails for the request stored under id 0 only. *)
Definition history_down_for_0 (s : statement) : option string :=
  match s with
  | InsertHistory h =>
      if Z.eqb (History.req_id h) 0 then Some "connection lost" else None
  | _ => None
  end.

Definition history_down_for_0_env : Env :=
  mk_env (Response 200 (ProdTable sample_prod_locations)) sample_lookup
    (fun _ => []) history_down_for_0 sample_clock 600000000 false.

(** Two requests for one serial number, under different ids. *)
Definition twice_requested : World :=
  world_of [pick_up 0 "S1001"; put_back 1 "S1001"; pick_up 2 "S-WH"].

(** The row that [request_serial_no] hands to the insert. *)
Definition submitted_row (env : Env) (part_no serial_no : string)
  (data : submission) (g : Globals) : Requests.row :=
  Requests.mk (req_id g) serial_no part_no (data_revision data)
    (data_quantity data) (data_location data) (data_workcenter data)
    (submitted_req_time env g data) (data_master_unit_no data)
    (submitted_request_type data).

(** A master unit of three containers: one in a [J-B] location, two in the
    warehouse. *)
Definition sample_master_unit (master_unit : string)
  : list master_unit_container :=
  [mk_mu_container "C1" "P-100" 5%Q "WH-1";
   mk_mu_container "C2" "P-100" 7%Q "J-B3";
   mk_mu_container "C3" "P-100" 2%Q "WH-2"].

Definition master_unit_env : Env :=
  mk_env (Response 200 (ProdTable sample_prod_locations)) sample_lookup
    sample_master_unit no_fault sample_clock 600000000 false.

(** A submission whose [req_time] carries an offset of two hours. *)
Definition aware_submission : submission :=
  mk_submission (Some (mk_datetime 7200000000 (Some 7200000000))) (Some "A")
    (Some 5%Q) "WH-1" "WC-7" None None.

(** ** The socket registry *)

(** [send_cleanup_notification] with its registry of connected clients. A
    client is a connection handle; whether [send_text] raises on it during
    this broadcast is given by [send_fails]. The serialised message is kept
    as the notification it was made from. *)
Module WebSockets.

Definition connection := nat.

Record state := mk_state {
  active_connections : list connection;
  received : list (connection * notification)
}.

(** [list.remove(x)]: the first item equal to [x] goes; the [ValueError]
    raised when there is none is passed over. *)
Fixpoint remove (x : connection) (l : list connection) : list connection :=
  match l with
  | [] => []
  | y :: l' => if Nat.eqb x y then l' else y :: remove x l'
  end.

(** [for connection in active_connections]: what was sent, and the
    [disconnected_connections] collected on the way. *)
Fixpoint send_loop (send_fails : connection -> bool) (message : notification)
  (connections : list connection)
  : list (connection * notification) * list connection :=
  match connections with
  | [] => ([], [])
  | connection :: rest =>
      let (sent_rest, disconnected_connections) :=
        send_loop send_fails message rest in
      if send_fails connection
      then (sent_rest, connection :: disconnected_connections)
      else ((connection, message) :: sent_rest, disconnected_connections)
  end.

Definition send_cleanup_notification (send_fails : connection -> bool)
  (notification_data : notification) (st : state) : state :=
  match active_connections st with
  | [] => st
  | _ :: _ =>
      let (sent_now, disconnected_connections) :=
        send_loop send_fails notification_data (active_connections st) in
      mk_state
        (fold_left (fun l dead_conn => remove dead_conn l)
           disconnected_connections (active_connections st))
        (received st ++ sent_now)
  end.

End WebSockets.

(** ** The connection pool *)




(** ** The history sweep *)

Definition thirty_days : Z := 30 * 86400 * 1000000.

(** [fulfilled_time < DATEADD(day, -30, GETDATE())] *)
Definition past_retention (getdate : Z) (h : History.row) : bool :=
  Z.ltb (History.fulfilled_time h) (getdate - thirty_days).

(** [automated_history_cleanup]: the records past retention are counted and,
    if there are any, deleted; [GETDATE()] is read once by each of the two
    statements. With [raises] a statement of the sweep raises and nothing
    is committed. The sweep is not among the journalled statements. *)
Definition automated_history_cleanup (raises : bool)
  (getdate_count getdate_delete : Z) (w : World) : World :=
  if raises then w
  else
    let records_to_delete :=
      List.length (filter (past_retention getdate_count) (REQUESTS_HISTORY w)) in
    if (0 <? records_to_delete)%nat
    then mk_world (REQUESTS w)
           (filter (fun h => negb (past_retention getdate_delete h))
              (REQUESTS_HISTORY w))
           (journal w) (sent w)
    else w.

(** ** Clearing the history *)

(** A local variable of a Python function is unbound until it is assigned;
    reading it before raises [UnboundLocalError] (the wording of its
    message varies with the interpreter; one wording is used here). *)
Definition read_local {A : Type} (name : string) (value : option A)
  : result A :=
  match value with
  | Some a => Ok a
  | None =>
      Raised (String.append "local variable '"
                (String.append name "' referenced before assignment"))
  end.

(** The content of the success answer of [clear_all_history]. *)
Record cleared := mk_cleared {
  cleared_message : string;
  deleted_count : nat
}.

(** Where the storage raises while [clear_all_history] runs, if anywhere. *)
Inductive clear_fault :=
| NothingRaises
| ConnectionRaises (msg : string)
| CountRaises (msg : string)
| DeleteRaises (msg : string)
| CommitRaises (msg : string).

(** [DELETE /api/history/clear-all]. The [try] block counts the records,
    returns early when there are none, and otherwise deletes them all,
    assigns [deleted_count] and commits. Its [finally] block ends in a
    [return] that reads [deleted_count]: that [return] replaces whatever the
    [try] block returned or raised, and if [deleted_count] was never assigned
    the read raises, which the outer handler turns into status 500. So a
    commit that raises is passed over: the answer is the success answer,
    while the delete was not committed and the table holds what it held. A
    connection that cannot be had raises before the inner [try]. *)
Definition clear_all_history (fault : clear_fault) (w : World)
  : result cleared * World :=
  match fault with
  | ConnectionRaises msg =>
      (Raised (String.append "Failed to clear history: " msg), w)
  | _ =>
      let '(deleted_count, w') :=
        match fault with
        | CountRaises _ => (None, w)
        | _ =>
            match List.length (REQUESTS_HISTORY w) with
            | O => (None, w)
            | S n =>
                match fault with
                | DeleteRaises _ => (None, w)
                | CommitRaises _ => (Some (S n), w)
                | _ =>
                    (Some (S n),
                     mk_world (REQUESTS w) [] (journal w) (sent w))
                end
            end
        end in
      match read_local "deleted_count" deleted_count with
      | Ok n =>
          (Ok (mk_cleared "Successfully deleted all history records" n), w')
      | Raised msg =>
          (Raised (String.append "Failed to clear history: " msg), w')
      end
  end.

(** ** The history pages *)

(** The conditions that [get_history] puts into its [WHERE] clause. *)
Inductive where_clause :=
| FulfilledInLast30Days
| DeliverToIsNotTest
| SerialNoLike (pattern : string)
| PartNoLike (pattern : string)
| RequestTypeIs (request_type : string)
| FulfillmentTypeIs (fulfillment_type : string)
| FulfilledFrom (start_dt : datetime)
| FulfilledUntil (end_dt : datetime).

Definition like_anywhere (s : string) : string :=
  String.append "%" (String.append s "%").

(** A filter that is absent or empty adds no condition; a date that does
    not parse ([Some None]) is passed over. *)
Definition where_clauses (serial_no part_no request_type fulfillment_type
  : option string) (start_date end_date : option (option datetime))
  : list where_clause :=
  [FulfilledInLast30Days; DeliverToIsNotTest]
  ++ (if truthy serial_no
      then [SerialNoLike (like_anywhere (or_default serial_no ""))] else [])
  ++ (if truthy part_no
      then [PartNoLike (like_anywhere (or_default part_no ""))] else [])
  ++ (if truthy request_type
      then [RequestTypeIs (or_default request_type "")] else [])
  ++ (if truthy fulfillment_type
      then [FulfillmentTypeIs (or_default fulfillment_type "")] else [])
  ++ match start_date with Some (Some dt) => [FulfilledFrom dt] | _ => [] end
  ++ match end_date with Some (Some dt) => [FulfilledUntil dt] | _ => [] end.

Record pagination := mk_pagination {
  current_page : Z;
  total_pages : Z;
  total_records : Z;
  page_limit : Z;
  has_next : bool;
  has_prev : bool
}.

(** [GET /api/history]. [select] stands for the database: the records that
    satisfy the conditions, in the order of [ORDER BY fulfilled_time DESC];
    the count query counts them and [OFFSET ? ROWS FETCH NEXT ? ROWS ONLY]
    cuts the page out of them. [convert] is the conversion of a row into
    the dictionary that is returned. *)
Definition get_history {A B : Type} (convert : A -> B)
  (select : list where_clause -> list A) (page limit : Z)
  (serial_no part_no request_type fulfillment_type : option string)
  (start_date end_date : option (option datetime)) : list B * pagination :=
  let page := if (page <? 1)%Z then 1 else page in
  let limit := if (limit <? 1)%Z || (500 <? limit)%Z then 50 else limit in
  let offset := (page - 1) * limit in
  let matching :=
    select (where_clauses serial_no part_no request_type fulfillment_type
              start_date end_date) in
  let total_count := Z.of_nat (List.length matching) in
  let rows := firstn (Z.to_nat limit) (skipn (Z.to_nat offset) matching) in
  let total_pages := (total_count + limit - 1) / limit in
  (map convert rows,
   mk_pagination page total_pages total_count limit (page <? total_pages)%Z
     (1 <? page)%Z).

(** ** Shifts *)

Definition microseconds_per_hour : Z := 3600000000.

(** The hour of the Prague wall clock. A naive value is taken as UTC;
    [prague_utcoffset] is the offset of Europe/Prague at a UTC instant, in
    microseconds, as the time-zone library has it. *)
Definition czech_hour (prague_utcoffset : Z -> Z) (dt : datetime) : Z :=
  let utc := astimezone_utc_naive dt in
  ((utc + prague_utcoffset utc) / microseconds_per_hour) mod 24.

Definition get_shift_from_czech_datetime (prague_utcoffset : Z -> Z)
  (dt : option datetime) : string :=
  match dt with
  | None => "Unknown"
  | Some dt =>
      let hour := czech_hour prague_utcoffset dt in
      if (6 <=? hour)%Z && (hour <? 14)%Z then "Morning"
      else if (14 <=? hour)%Z && (hour <? 22)%Z then "Evening"
      else "Night"
  end.

(** The shift that follows. *)
Definition next_shift (shift : string) : string :=
  if shift =? "Morning" then "Evening"
  else if shift =? "Evening" then "Night"
  else "Morning".

(** A value eight hours later on the same clock. *)
Definition eight_hours_later (dt : datetime) : datetime :=
  mk_datetime (wall dt + 8 * microseconds_per_hour) (tzinfo dt).

(** ** Sample inputs for the further handlers *)

Definition sample_history_row (k fulfilled_time : Z) : History.row :=
  History.mk k "S1001" "P-100" "A" 5%Q "WH-1" "WC-7" (naive 0) fulfilled_time
    0 "auto_cleanup" "PROD-A" (Some "PICK_UP").

Definition one_day : Z := 86400 * 1000000.

(** One record fulfilled forty days before the sweep, one ten days before. *)
Definition aged_history : World :=
  mk_world [] [sample_history_row 1 (10 * one_day);
               sample_history_row 2 (40 * one_day)] [] [].

(** Winter time throughout. *)
Definition winter_offset (utc : Z) : Z := microseconds_per_hour.

(** ** The storage engine: basic facts *)

Lemma execute_no_key (env : Env) (s : statement) (w : World) :
  violates_key s w = false ->
  execute env s w =
    if goes_through env s then Ok (apply_statement s w)
    else match storage_fault env s with
         | Some msg => Raised msg
         | None => Ok (apply_statement s w)
         end.
Proof.
  intros Hk. unfold execute, goes_through.
  destruct (storage_fault env s); [reflexivity|]. now rewrite Hk.
Qed.

Lemma apply_all_app (ss1 ss2 : list statement) (w : World) :
  apply_all (ss1 ++ ss2) w = apply_all ss2 (apply_all ss1 w).
Proof. unfold apply_all. apply fold_left_app. Qed.

Lemma journal_apply_all (ss : list statement) (w : World) :
  journal (apply_all ss w) = journal w ++ ss.
Proof.
  revert w. induction ss as [|s ss IH]; intros w; simpl.
  - now rewrite app_nil_r.
  - unfold apply_all in IH. rewrite IH. simpl. now rewrite <- app_assoc.
Qed.

Lemma sent_apply_all (ss : list statement) (w : World) :
  sent (apply_all ss w) = sent w.
Proof.
  revert w. induction ss as [|s ss IH]; intros w; simpl; [reflexivity|].
  unfold apply_all in IH. now rewrite IH.
Qed.

Lemma retire_snd (env : Env) (ft : string) (c : Container.dict) (w : World) :
  snd (retire env ft c w) = apply_all (retire_statements env ft c) w.
Proof.
  unfold retire, log_request_to_history, retire_statements.
  fold (history_of env ft c).
  rewrite execute_no_key by reflexivity.
  destruct (goes_through env (InsertHistory (history_of env ft c))) eqn:Hh.
  - rewrite execute_no_key by reflexivity.
    destruct (goes_through env (DeleteRequestById (Container.req_id c))) eqn:Hd;
      [reflexivity|].
    unfold goes_through in Hd.
    destruct (storage_fault env (DeleteRequestById (Container.req_id c)));
      [reflexivity|discriminate].
  - unfold goes_through in Hh.
    destruct (storage_fault env (InsertHistory (history_of env ft c)));
      [reflexivity|discriminate].
Qed.

Lemma retire_all_snd (env : Env) (ft : string) (cs : list Container.dict)
  (w : World) :
  snd (retire_all env ft cs w)
  = apply_all (flat_map (retire_statements env ft) cs) w.
Proof.
  revert w. induction cs as [|c cs IH]; intros w; simpl; [reflexivity|].
  rewrite apply_all_app, <- retire_snd, <- IH.
  destruct (retire env ft c w) as [o w1]. simpl.
  now destruct (retire_all env ft cs w1).
Qed.

Lemma filter_filter {A : Type} (f g : A -> bool) (l : list A) :
  filter f (filter g l) = filter (fun x => g x && f x) l.
Proof.
  induction l as [|x l IH]; simpl; [reflexivity|].
  destruct (g x); simpl; [destruct (f x)|]; now rewrite IH.
Qed.

Lemma filter_all_true {A : Type} (f : A -> bool) (l : list A) :
  (forall x, In x l -> f x = true) -> filter f l = l.
Proof.
  induction l as [|x l IH]; intros H; simpl; [reflexivity|].
  rewrite (H x (or_introl eq_refl)). f_equal. apply IH.
  intros y Hy. apply H. now right.
Qed.

Lemma requests_retire_statements (env : Env) (ft : string)
  (c : Container.dict) (w : World) :
  REQUESTS (apply_all (retire_statements env ft c) w)
  = filter (fun r => negb (deletable env ft c
                           && has_req_id (Container.req_id c) r))
      (REQUESTS w).
Proof.
  unfold retire_statements, deletable.
  destruct (goes_through env (InsertHistory (history_of env ft c))); simpl.
  - destruct (goes_through env (DeleteRequestById (Container.req_id c)));
      simpl; [reflexivity|].
    symmetry. now apply filter_all_true.
  - symmetry. now apply filter_all_true.
Qed.

Lemma requests_retire_all (env : Env) (ft : string) (cs : list Container.dict)
  (w : World) :
  REQUESTS (snd (retire_all env ft cs w))
  = filter (survives env ft cs) (REQUESTS w).
Proof.
  rewrite retire_all_snd. revert w.
  induction cs as [|c cs IH]; intros w; simpl.
  - symmetry. now apply filter_all_true.
  - rewrite apply_all_app, IH, requests_retire_statements, filter_filter.
    apply filter_ext. intros r. unfold survives. simpl.
    now rewrite negb_orb.
Qed.

Lemma history_apply_statement_mono (s : statement) (w : World) (h : History.row) :
  In h (REQUESTS_HISTORY w) -> In h (REQUESTS_HISTORY (apply_statement s w)).
Proof.
  destruct s; simpl; auto. intros H. apply in_or_app. now left.
Qed.

Lemma history_apply_all_mono (ss : list statement) (w : World) (h : History.row) :
  In h (REQUESTS_HISTORY w) -> In h (REQUESTS_HISTORY (apply_all ss w)).
Proof.
  revert w. induction ss as [|s ss IH]; intros w H; simpl; [exact H|].
  apply IH. now apply history_apply_statement_mono.
Qed.

Lemma history_apply_all_in (ss : list statement) (w : World) (h : History.row) :
  In (InsertHistory h) ss -> In h (REQUESTS_HISTORY (apply_all ss w)).
Proof.
  revert w. induction ss as [|s ss IH]; intros w H; simpl; [contradiction|].
  destruct H as [-> | H].
  - apply history_apply_all_mono. simpl. apply in_or_app. right. now left.
  - now apply IH.
Qed.

(** ** Ordering and flagging: basic facts *)

Lemma insert_desc_perm (r : Requests.row) (l : list Requests.row) :
  Permutation (r :: l) (insert_desc r l).
Proof.
  induction l as [|x l IH]; simpl; [reflexivity|].
  destruct (wall (Requests.req_time x) <? wall (Requests.req_time r))%Z;
    [reflexivity|].
  rewrite perm_swap. now constructor.
Qed.

Lemma order_by_req_time_desc_perm (l : list Requests.row) :
  Permutation l (order_by_req_time_desc l).
Proof.
  induction l as [|x l IH]; simpl; [constructor|].
  rewrite <- insert_desc_perm. now constructor.
Qed.

Lemma in_select_active_requests (w : World) (r : Requests.row) :
  In r (select_active_requests w) <-> In r (REQUESTS w).
Proof.
  unfold select_active_requests. split; intros H.
  - eapply Permutation_in; [symmetry; apply order_by_req_time_desc_perm|exact H].
  - eapply Permutation_in; [apply order_by_req_time_desc_perm|exact H].
Qed.

Lemma length_select_active_requests (w : World) :
  List.length (select_active_requests w) = List.length (REQUESTS w).
Proof.
  symmetry. apply Permutation_length, order_by_req_time_desc_perm.
Qed.

Lemma flagged_entry_keeps_identity : keeps_identity flagged_entry.
Proof. intros r loc. now repeat split. Qed.

Lemma container_info_keeps_identity : keeps_identity container_info.
Proof. intros r loc. now repeat split. Qed.

(** Every flagged container comes from a row that is not a put-back and
    whose looked-up location is non-empty and a production location. *)
Lemma flag_requests_sound (entry : Requests.row -> string -> Container.dict)
  (env : Env) (prod : list string) (rows : list Requests.row)
  (c : Container.dict) :
  In c (flag_requests entry env prod rows) ->
  exists r loc,
    In r rows /\ c = entry r loc /\ is_put_back r = false
    /\ check_container_current_location env (Requests.serial_no r) = Some loc
    /\ truthy (Some loc) = true /\ py_in loc prod = true.
Proof.
  induction rows as [|x rows IH]; simpl; [contradiction|].
  assert (Hrest : In c (flag_requests entry env prod rows) ->
                  exists r loc,
                    In (A:=Requests.row) r (x :: rows) /\ c = entry r loc
                    /\ is_put_back r = false
                    /\ check_container_current_location env
                         (Requests.serial_no r) = Some loc
                    /\ truthy (Some loc) = true /\ py_in loc prod = true).
  { intros H. destruct (IH H) as (r & loc & Hin & Hrest).
    exists r, loc. split; [now right|exact Hrest]. }
  destruct (is_put_back x) eqn:Hpb; [exact Hrest|].
  destruct (check_container_current_location env (Requests.serial_no x))
    as [loc|] eqn:Hloc; [|exact Hrest].
  destruct (truthy (Some loc) && py_in loc prod) eqn:Hflag; [|exact Hrest].
  apply andb_true_iff in Hflag. destruct Hflag as [Ht Hp].
  intros [<- | H]; [|now apply Hrest].
  exists x, loc. repeat split; auto.
Qed.

Lemma flag_requests_complete (entry : Requests.row -> string -> Container.dict)
  (env : Env) (prod : list string) (rows : list Requests.row)
  (r : Requests.row) (loc : string) :
  In r rows -> is_put_back r = false ->
  check_container_current_location env (Requests.serial_no r) = Some loc ->
  truthy (Some loc) = true -> py_in loc prod = true ->
  In (entry r loc) (flag_requests entry env prod rows).
Proof.
  intros Hin Hpb Hloc Ht Hp.
  induction rows as [|x rows IH]; simpl; [contradiction|].
  destruct Hin as [-> | Hin].
  - rewrite Hpb, Hloc, Ht, Hp. now left.
  - specialize (IH Hin). destruct (is_put_back x); [exact IH|].
    destruct (check_container_current_location env (Requests.serial_no x));
      [|exact IH].
    destruct (truthy (Some s) && py_in s prod); [now right|exact IH].
Qed.

Lemma keyed_inj (rows : list Requests.row) (a b : Requests.row) :
  keyed rows -> In a rows -> In b rows ->
  Requests.req_id a = Requests.req_id b -> a = b.
Proof.
  unfold keyed. induction rows as [|x rows IH]; simpl; [contradiction|].
  intros Hk Ha Hb Heq. inversion Hk as [|? ? Hnot Hk']; subst.
  destruct Ha as [-> | Ha], Hb as [-> | Hb]; auto.
  - exfalso. apply Hnot. rewrite Heq. now apply in_map.
  - exfalso. apply Hnot. rewrite <- Heq. now apply in_map.
Qed.

(** ** The passes as lists of statements *)

Lemma flag_requests_no_prod (entry : Requests.row -> string -> Container.dict)
  (env : Env) (rows : list Requests.row) :
  flag_requests entry env [] rows = [].
Proof.
  induction rows as [|x rows IH]; simpl; [reflexivity|].
  destruct (is_put_back x); [exact IH|].
  destruct (check_container_current_location env (Requests.serial_no x));
    [|exact IH].
  now rewrite andb_false_r.
Qed.

Lemma automated_tables (env : Env) (w : World) :
  let w1 :=
    apply_all
      (flat_map (retire_statements env "auto_cleanup")
         (retired_by_scheduled env w)) w in
  REQUESTS (automated_container_cleanup env w) = REQUESTS w1
  /\ REQUESTS_HISTORY (automated_container_cleanup env w) = REQUESTS_HISTORY w1
  /\ journal (automated_container_cleanup env w) = journal w1.
Proof.
  unfold automated_container_cleanup, retired_by_scheduled, flagged_by_scheduled.
  destruct (get_prod_locations env) as [prod|msg]; [|now simpl].
  destruct prod as [|p prod]; [now rewrite flag_requests_no_prod|].
  destruct (flag_requests flagged_entry env (p :: prod) (select_active_requests w))
    as [|c cs] eqn:Hcs; [now simpl|].
  destruct (safety_limit <? List.length (c :: cs))%nat; [now simpl|].
  rewrite <- retire_all_snd.
  destruct (retire_all env "auto_cleanup" (c :: cs) w) as [os w1]. now simpl.
Qed.

Lemma manual_world (env : Env) (w : World) :
  snd (manual_container_cleanup env w)
  = apply_all
      (flat_map (retire_statements env "manual_cleanup")
         (flagged_by_manual env w)) w.
Proof.
  unfold manual_container_cleanup, flagged_by_manual.
  destruct (get_prod_locations env) as [prod|msg]; [|reflexivity].
  rewrite <- retire_all_snd.
  now destruct (retire_all env "manual_cleanup"
                  (flag_requests container_info env prod (select_active_requests w)) w).
Qed.

Lemma flagged_by_scheduled_sound (env : Env) (w : World) (c : Container.dict) :
  In c (flagged_by_scheduled env w) ->
  exists r loc,
    In r (REQUESTS w) /\ c = flagged_entry r loc /\ is_put_back r = false
    /\ check_container_current_location env (Requests.serial_no r) = Some loc
    /\ truthy (Some loc) = true.
Proof.
  unfold flagged_by_scheduled.
  destruct (get_prod_locations env) as [prod|msg]; [|contradiction].
  intros H. apply flag_requests_sound in H.
  destruct H as (r & loc & Hin & Hc & Hpb & Hloc & Ht & _).
  exists r, loc. rewrite <- in_select_active_requests. auto.
Qed.

Lemma retired_by_scheduled_flagged (env : Env) (w : World) (c : Container.dict) :
  In c (retired_by_scheduled env w) -> In c (flagged_by_scheduled env w).
Proof.
  unfold retired_by_scheduled.
  now destruct (safety_limit <? List.length (flagged_by_scheduled env w))%nat.
Qed.

Lemma flagged_by_manual_sound (env : Env) (w : World) (c : Container.dict) :
  In c (flagged_by_manual env w) ->
  exists r loc,
    In r (REQUESTS w) /\ c = container_info r loc /\ is_put_back r = false
    /\ check_container_current_location env (Requests.serial_no r) = Some loc
    /\ truthy (Some loc) = true.
Proof.
  unfold flagged_by_manual.
  destruct (get_prod_locations env) as [prod|msg]; [|contradiction].
  intros H. apply flag_requests_sound in H.
  destruct H as (r & loc & Hin & Hc & Hpb & Hloc & Ht & _).
  exists r, loc. rewrite <- in_select_active_requests. auto.
Qed.

(** ** Retiring a list of containers *)

Section Retirement.

Variable env : Env.
Variable ft : string.
Variable cs : list Container.dict.
Variable w : World.

Let w1 : World := apply_all (flat_map (retire_statements env ft) cs) w.

Lemma requests_after_retirement :
  REQUESTS w1 = filter (survives env ft cs) (REQUESTS w).
Proof.
  unfold w1. rewrite <- retire_all_snd. apply requests_retire_all.
Qed.


(** A row that disappears was hit by the delete of a container with its
    [req_id], and that delete directly follows the container's history
    insert in the journal. *)
Lemma removed_by_flagged (r : Requests.row) :
  In r (REQUESTS w) -> ~ In r (REQUESTS w1) ->
  exists c pre post,
    In c cs /\ Container.req_id c = Requests.req_id r
    /\ journal w1 =
         journal w ++ pre
           ++ InsertHistory (history_of env ft c)
              :: DeleteRequestById (Requests.req_id r) :: post
    /\ In (history_of env ft c) (REQUESTS_HISTORY w1).
Proof.
  intros Hin Hgone. rewrite requests_after_retirement in Hgone.
  assert (Hs : survives env ft cs r = false).
  { destruct (survives env ft cs r) eqn:Hs; [|reflexivity].
    exfalso. apply Hgone. apply filter_In. now split. }
  unfold survives in Hs. apply negb_false_iff in Hs.
  apply existsb_exists in Hs. destruct Hs as (c & Hc & Hhit).
  apply andb_true_iff in Hhit. destruct Hhit as [Hdel Hid].
  unfold has_req_id in Hid. apply Z.eqb_eq in Hid.
  unfold deletable in Hdel. apply andb_true_iff in Hdel.
  destruct Hdel as [Hh Hd].
  assert (Hstmts : retire_statements env ft c =
                   [InsertHistory (history_of env ft c);
                    DeleteRequestById (Requests.req_id r)]).
  { unfold retire_statements. rewrite Hh, Hd. now rewrite Hid. }
  destruct (in_split _ _ Hc) as (cs1 & cs2 & Hsplit).
  exists c, (flat_map (retire_statements env ft) cs1),
    (flat_map (retire_statements env ft) cs2).
  repeat split; auto.
  - unfold w1. rewrite journal_apply_all. f_equal.
    rewrite Hsplit, flat_map_app. simpl. now rewrite Hstmts.
  - unfold w1. apply history_apply_all_in. apply in_flat_map.
    exists c. split; [exact Hc|]. rewrite Hstmts. now left.
Qed.

End Retirement.

(** ** Which rows a pass can hit *)

(** Under the key constraint, a flagged container with the [req_id] of a
    row of the table was built from that very row. *)
Lemma flagged_by_scheduled_of_row (env : Env) (w : World)
  (c : Container.dict) (r : Requests.row) :
  keyed (REQUESTS w) -> In r (REQUESTS w) ->
  In c (flagged_by_scheduled env w) ->
  Container.req_id c = Requests.req_id r ->
  exists loc,
    c = flagged_entry r loc /\ is_put_back r = false
    /\ check_container_current_location env (Requests.serial_no r) = Some loc
    /\ truthy (Some loc) = true.
Proof.
  intros Hk Hin Hc Hid.
  destruct (flagged_by_scheduled_sound env w c Hc)
    as (r' & loc & Hin' & -> & Hrest).
  assert (r' = r) as -> by (now apply (keyed_inj (REQUESTS w))).
  now exists loc.
Qed.

Lemma flagged_by_manual_of_row (env : Env) (w : World)
  (c : Container.dict) (r : Requests.row) :
  keyed (REQUESTS w) -> In r (REQUESTS w) ->
  In c (flagged_by_manual env w) ->
  Container.req_id c = Requests.req_id r ->
  exists loc,
    c = container_info r loc /\ is_put_back r = false
    /\ check_container_current_location env (Requests.serial_no r) = Some loc
    /\ truthy (Some loc) = true.
Proof.
  intros Hk Hin Hc Hid.
  destruct (flagged_by_manual_sound env w c Hc)
    as (r' & loc & Hin' & -> & Hrest).
  assert (r' = r) as -> by (now apply (keyed_inj (REQUESTS w))).
  now exists loc.
Qed.





(** ** C1: deletions and their audit records *)

(** A request that [delete_request] removes carries the serial number asked
    for; the history insert of the row that was looked up is in the journal,
    before the delete, only if that insert went through. *)
Lemma delete_request_removes (env : Env) (serial_no : string) (w : World)
  (r : Requests.row) :
  In r (REQUESTS w) ->
  ~ In r (REQUESTS (snd (delete_request env serial_no w))) ->
  exists found,
    find (has_serial_no serial_no) (REQUESTS w) = Some found
    /\ Requests.serial_no r = Requests.serial_no found
    /\ journal (snd (delete_request env serial_no w))
       = journal w ++ manual_delete_statements env serial_no found.
Proof.
  intros Hin Hgone. unfold delete_request, log_request_to_history in *.
  fold (manual_delete_row env) in *.
  destruct (find (has_serial_no serial_no) (REQUESTS w)) as [found|] eqn:Hfind;
    [|contradiction].
  fold (manual_delete_row env found) in *.
  exists found. split; [reflexivity|].
  assert (Hfound : Requests.serial_no found = serial_no).
  { apply find_some in Hfind. destruct Hfind as [_ H].
    unfold has_serial_no in H. now apply String.eqb_eq in H. }
  unfold manual_delete_statements, goes_through, execute in *.
  destruct (storage_fault env (InsertHistory (manual_delete_row env found)));
    destruct (storage_fault env (DeleteRequestBySerial serial_no));
    simpl in *; try contradiction.
  - split; [|reflexivity].
    destruct (has_serial_no serial_no r) eqn:Hs.
    + unfold has_serial_no in Hs. apply String.eqb_eq in Hs. congruence.
    + exfalso. apply Hgone. apply filter_In. now rewrite Hs.
  - split; [|now rewrite <- app_assoc].
    destruct (has_serial_no serial_no r) eqn:Hs.
    + unfold has_serial_no in Hs. apply String.eqb_eq in Hs. congruence.
    + exfalso. apply Hgone. apply filter_In. now rewrite Hs.
Qed.

(** C1, as amended. For every request that the scheduled pass or the manual
    clean-up removes from the active table, a history record with the same
    [req_id] and [serial_no] was inserted directly before the delete of that
    [req_id], and the record is in the history table afterwards. The table
    is keyed by [req_id]. For a request removed by the manual-deletion
    handler only this much holds: the history insert for the row found
    under the serial number comes before the delete if it went through, and
    the delete is executed in either case. *)
Theorem cleanup_deletes_only_after_audit (env : Env) (w : World)
  (r : Requests.row) :
  keyed (REQUESTS w) -> In r (REQUESTS w) ->
  (~ In r (REQUESTS (automated_container_cleanup env w)) ->
   audited_removal w (automated_container_cleanup env w) r)
  /\ (~ In r (REQUESTS (snd (manual_container_cleanup env w))) ->
      audited_removal w (snd (manual_container_cleanup env w)) r)
  /\ (forall serial_no,
        ~ In r (REQUESTS (snd (delete_request env serial_no w))) ->
        exists found,
          find (has_serial_no serial_no) (REQUESTS w) = Some found
          /\ Requests.serial_no r = Requests.serial_no found
          /\ journal (snd (delete_request env serial_no w))
             = journal w ++ manual_delete_statements env serial_no found).
Proof.
  intros Hk Hin. split; [|split].
  - intros Hgone. destruct (automated_tables env w) as (HR & HH & HJ).
    rewrite HR in Hgone.
    destruct (removed_by_flagged env "auto_cleanup" _ w r Hin Hgone)
      as (c & pre & post & Hc & Hid & Hj & Hh).
    apply retired_by_scheduled_flagged in Hc.
    destruct (flagged_by_scheduled_of_row env w c r Hk Hin Hc Hid)
      as (loc & -> & _).
    exists pre, post, (history_of env "auto_cleanup" (flagged_entry r loc)).
    rewrite HJ, HH. repeat split; auto.
  - intros Hgone. rewrite manual_world in Hgone |- *.
    destruct (removed_by_flagged env "manual_cleanup" _ w r Hin Hgone)
      as (c & pre & post & Hc & Hid & Hj & Hh).
    destruct (flagged_by_manual_of_row env w c r Hk Hin Hc Hid)
      as (loc & -> & _).
    exists pre, post, (history_of env "manual_cleanup" (container_info r loc)).
    repeat split; auto.
  - intros serial_no. now apply delete_request_removes.
Qed.

Lemma keyed_one_request : keyed (REQUESTS one_request).
Proof. repeat constructor. simpl. tauto. Qed.

Lemma cleanup_deletes_only_after_audit_witness :
  audited_removal one_request
    (automated_container_cleanup healthy_env one_request) (pick_up 0 "S1001")
  /\ audited_removal one_request
       (snd (manual_container_cleanup healthy_env one_request))
       (pick_up 0 "S1001").
Proof.
  destruct (cleanup_deletes_only_after_audit healthy_env one_request
              (pick_up 0 "S1001") keyed_one_request (or_introl eq_refl))
    as (Ha & Hm & _).
  split; [apply Ha | apply Hm]; vm_compute; tauto.
Defined.

(** C1, as stated, fails for the manual-deletion handler: with the history
    table unreachable, [delete_request] removes the request although no
    history record was written. *)
Lemma delete_request_deletes_without_audit :
  let w' := snd (delete_request history_down_env "S1001" one_request) in
  In (pick_up 0 "S1001") (REQUESTS one_request)
  /\ REQUESTS w' = []
  /\ REQUESTS_HISTORY w' = []
  /\ journal w' = [DeleteRequestBySerial "S1001"].
Proof. vm_compute. tauto. Qed.

(** ** C3 and C5: requests the passes leave alone *)

(** Both passes delete by [req_id], so a row goes with any flagged row that
    is stored under its [req_id]. Nothing in the code keeps the ids of the
    stored rows apart: they come from a counter that starts at 0 with every
    process. *)


Lemma keyed_mixed_requests : keyed (REQUESTS mixed_requests).
Proof. repeat constructor; simpl; intuition discriminate. Qed.






(** ** C2 and C4: the two aborts of the scheduled pass *)

(** C2, as amended. When the scheduled pass flags more than ten requests it
    returns at once: the world is left as it was, so no request is deleted,
    no history record is written and no notification is sent. *)
Theorem safety_limit_aborts_without_event (env : Env) (w : World) :
  (safety_limit < List.length (flagged_by_scheduled env w))%nat ->
  automated_container_cleanup env w = w.
Proof.
  unfold flagged_by_scheduled, automated_container_cleanup.
  destruct (get_prod_locations env) as [prod|msg]; simpl; [|unfold safety_limit; lia].
  destruct prod as [|p prod]; [reflexivity|].
  destruct (flag_requests flagged_entry env (p :: prod) (select_active_requests w))
    as [|c cs]; [simpl; unfold safety_limit; lia|].
  intros Hgate. apply Nat.ltb_lt in Hgate. now rewrite Hgate.
Qed.

Lemma safety_limit_aborts_without_event_witness :
  automated_container_cleanup healthy_env eleven_requests = eleven_requests.
Proof.
  apply (safety_limit_aborts_without_event healthy_env eleven_requests).
  apply Nat.ltb_lt. vm_compute. reflexivity.
Defined.

(** C2, as stated, fails on its second half: with eleven requests flagged
    the pass deletes nothing, but it sends no event at all. *)
Lemma safety_abort_sends_no_alert :
  List.length (flagged_by_scheduled healthy_env eleven_requests) = 11%nat
  /\ REQUESTS (automated_container_cleanup healthy_env eleven_requests)
     = REQUESTS eleven_requests
  /\ sent (automated_container_cleanup healthy_env eleven_requests) = [].
Proof. vm_compute. tauto. Qed.

(** C4, as amended. When the fetch of the production locations fails or
    gives an empty list, the scheduled pass changes neither table and
    executes no statement. An error event is sent only when the fetch
    raised; when the client returned an empty list (time-out, transport
    error, status other than 200, unusable body, or an empty table) nothing
    is sent. *)
Theorem no_production_locations_no_mutation (env : Env) (w : World) :
  (forall l, get_prod_locations env = Ok l -> l = []) ->
  REQUESTS (automated_container_cleanup env w) = REQUESTS w
  /\ REQUESTS_HISTORY (automated_container_cleanup env w) = REQUESTS_HISTORY w
  /\ journal (automated_container_cleanup env w) = journal w
  /\ sent (automated_container_cleanup env w)
     = sent w ++ match get_prod_locations env with
                 | Raised msg => [auto_cleanup_error msg (now env)]
                 | Ok _ => []
                 end.
Proof.
  intros Hfail. unfold automated_container_cleanup.
  destruct (get_prod_locations env) as [prod|msg].
  - rewrite (Hfail prod eq_refl). simpl. now rewrite app_nil_r.
  - now simpl.
Qed.

Lemma no_production_locations_no_mutation_witness :
  REQUESTS (automated_container_cleanup prod_timeout_env one_request)
  = REQUESTS one_request
  /\ REQUESTS_HISTORY (automated_container_cleanup prod_timeout_env one_request)
     = REQUESTS_HISTORY one_request
  /\ journal (automated_container_cleanup prod_timeout_env one_request)
     = journal one_request
  /\ sent (automated_container_cleanup prod_timeout_env one_request)
     = sent one_request ++ [].
Proof.
  apply (no_production_locations_no_mutation prod_timeout_env one_request).
  intros l H. vm_compute in H. now inversion H.
Defined.

(** C4, as stated, fails on its last part: the fetch times out, the pass
    aborts, and no event is sent. *)
Lemma failed_fetch_sends_no_error_event :
  erp_prod_locations prod_timeout_env = Timeout
  /\ get_prod_locations prod_timeout_env = Ok []
  /\ sent (automated_container_cleanup prod_timeout_env one_request) = [].
Proof. vm_compute. tauto. Qed.

(** ** C7: what the completion event reports *)

(** With the storage reachable, a pass that gets past the safety limit sends
    the completion event, made of the size of the active table and of the
    flagged containers. *)
Lemma completion_event_shape (env : Env) (w : World) (prod : list string) :
  get_prod_locations env = Ok prod -> prod <> [] ->
  (List.length (flagged_by_scheduled env w) <= safety_limit)%nat ->
  sent (automated_container_cleanup env w)
  = sent w
    ++ [auto_cleanup_complete (List.length (REQUESTS w))
          (List.length (flagged_by_scheduled env w))
          (map summary (flagged_by_scheduled env w)) (now env)].
Proof.
  intros Hprod Hne Hlimit.
  unfold automated_container_cleanup, flagged_by_scheduled in *.
  rewrite Hprod in *. destruct prod as [|p prod]; [contradiction|].
  rewrite length_select_active_requests.
  destruct (flag_requests flagged_entry env (p :: prod) (select_active_requests w))
    as [|c cs] eqn:Hcs; [reflexivity|].
  apply Nat.ltb_ge in Hlimit. rewrite Hlimit.
  pose proof (retire_all_snd env "auto_cleanup" (c :: cs) w) as Hw.
  destruct (retire_all env "auto_cleanup" (c :: cs) w) as [os w1].
  simpl in Hw. subst w1. cbn [send_cleanup_notification sent].
  now rewrite sent_apply_all.
Qed.

(** C7 does not hold of the code. With the history table unreachable the one
    flagged request is not deleted ([successful_deletions] is 0 and the
    table is unchanged), yet the completion event reports one removed
    container and lists it. *)
Theorem completion_event_reports_flagged_as_removed :
  let flagged := flagged_by_scheduled history_down_env one_request in
  let w' := automated_container_cleanup history_down_env one_request in
  successful_deletions
    (fst (retire_all history_down_env "auto_cleanup" flagged one_request)) = 0%nat
  /\ REQUESTS w' = REQUESTS one_request
  /\ sent w' =
       [auto_cleanup_complete 1 1 [mk_summary "S1001" "PROD-A" "WC-7"] 600000000].
Proof. vm_compute. tauto. Qed.

(** ** C6: the manual pass against the scheduled pass *)

(** C6 does not hold of the code. On eleven flagged requests the scheduled
    pass stops at the safety limit and deletes nothing, while the manual
    clean-up, which has no such check, deletes all eleven. *)
Theorem manual_cleanup_ignores_safety_limit :
  List.length (flagged_by_manual healthy_env eleven_requests) = 11%nat
  /\ List.length (REQUESTS eleven_requests) = 11%nat
  /\ REQUESTS (automated_container_cleanup healthy_env eleven_requests)
     = REQUESTS eleven_requests
  /\ REQUESTS (snd (manual_container_cleanup healthy_env eleven_requests)) = [].
Proof. vm_compute. tauto. Qed.

(** ** C8: the duration written by the audit writer *)

Lemma duration_minutes_floor (fulfilled_time req_time : Z) :
  req_time <= fulfilled_time ->
  duration_minutes fulfilled_time req_time
  = (fulfilled_time - req_time) / 60000000
  /\ 0 <= duration_minutes fulfilled_time req_time.
Proof.
  intros Hle. unfold duration_minutes, microseconds_per_minute.
  rewrite Z.quot_div_nonneg by lia.
  split; [reflexivity|]. apply Z.div_pos; lia.
Qed.

(** The conversion of the code gives the UTC instant of the request time. *)
Lemma req_time_utc_instant (req_time : datetime) :
  req_time_utc req_time = utc_instant req_time.
Proof.
  unfold req_time_utc, astimezone_utc_naive, utc_instant.
  destruct (tzinfo req_time); lia.
Qed.

(** C8. Whenever [log_request_to_history] writes a record, the record is the
    one new row of the history table; its [fulfilled_time] is the UTC clock
    reading, its duration is the difference between that and the UTC
    instant of the request time (the wall-clock reading less the offset from
    UTC), divided by one minute and rounded down, and it is not negative,
    provided the request time is not after the fulfilled time. *)
Theorem history_duration_is_floor_of_minutes (env : Env) (req_id : Z)
  (serial_no part_no revision : string) (quantity : Q)
  (location deliver_to : string) (req_time : datetime)
  (current_location fulfillment_type : string) (request_type : option string)
  (w w' : World) :
  utc_instant req_time <= utcnow env req_id ->
  log_request_to_history env req_id serial_no part_no revision quantity
    location deliver_to req_time current_location fulfillment_type
    request_type w = (true, w') ->
  exists h,
    REQUESTS_HISTORY w' = REQUESTS_HISTORY w ++ [h]
    /\ History.req_time h = req_time
    /\ History.fulfilled_time h = utcnow env req_id
    /\ History.fulfillment_duration_minutes h
       = (History.fulfilled_time h - utc_instant (History.req_time h))
         / 60000000
    /\ 0 <= History.fulfillment_duration_minutes h.
Proof.
  intros Hle Hlog. unfold log_request_to_history, execute in Hlog.
  match type of Hlog with
  | context [InsertHistory ?row] => exists row
  end.
  destruct (storage_fault env _); [discriminate|].
  simpl in Hlog. inversion Hlog; subst. unfold history_row. simpl.
  rewrite <- req_time_utc_instant in Hle |- *.
  destruct (duration_minutes_floor _ _ Hle) as [Hfloor Hpos].
  repeat split; assumption.
Qed.

(** A request made at 01:00 on a clock one hour ahead of UTC and fulfilled
    at 00:10 UTC took ten minutes. *)
Lemma history_duration_is_floor_of_minutes_witness :
  exists h,
    REQUESTS_HISTORY
      (apply_statement
         (InsertHistory
            (history_row healthy_env 7 "S1001" "P-100" "A" 5%Q "WH-1" "WC-7"
               (mk_datetime 3600000000 (Some 3600000000)) "PROD-A"
               "auto_cleanup" (Some "PICK_UP")))
         one_request)
    = REQUESTS_HISTORY one_request ++ [h]
    /\ History.req_time h = mk_datetime 3600000000 (Some 3600000000)
    /\ History.fulfilled_time h = 600000000
    /\ History.fulfillment_duration_minutes h = 10.
Proof.
  destruct (history_duration_is_floor_of_minutes healthy_env 7 "S1001" "P-100"
              "A" 5%Q "WH-1" "WC-7" (mk_datetime 3600000000 (Some 3600000000))
              "PROD-A" "auto_cleanup" (Some "PICK_UP") one_request
              (apply_statement
                 (InsertHistory
                    (history_row healthy_env 7 "S1001" "P-100" "A" 5%Q "WH-1"
                       "WC-7" (mk_datetime 3600000000 (Some 3600000000))
                       "PROD-A" "auto_cleanup" (Some "PICK_UP")))
                 one_request))
    as (h & Hrows & Hreq & Hful & Hdur & _).
  - vm_compute. discriminate.
  - reflexivity.
  - exists h. split; [exact Hrows|]. split; [exact Hreq|].
    split; [exact Hful|]. rewrite Hdur, Hful, Hreq. reflexivity.
Defined.

(** ** C9: a second pass *)

Lemma survives_none_deletable (env : Env) (ft : string)
  (cs : list Container.dict) (r : Requests.row) :
  (forall c, In c cs -> deletable env ft c = false) ->
  survives env ft cs r = true.
Proof.
  intros Hnone. unfold survives. apply negb_true_iff.
  destruct (existsb _ cs) eqn:Hex; [|reflexivity].
  apply existsb_exists in Hex. destruct Hex as (c & Hc & Hhit).
  now rewrite (Hnone c Hc) in Hhit.
Qed.

Lemma no_delete_unless_deletable (env : Env) (ft : string)
  (cs : list Container.dict) :
  (forall c, In c cs -> deletable env ft c = false) ->
  filter is_delete (flat_map (retire_statements env ft) cs) = [].
Proof.
  induction cs as [|c cs IH]; intros Hnone; simpl; [reflexivity|].
  rewrite filter_app, IH by (intros c' Hc'; apply Hnone; now right).
  rewrite app_nil_r. specialize (Hnone c (or_introl eq_refl)).
  unfold deletable in Hnone. unfold retire_statements.
  destruct (goes_through env (InsertHistory (history_of env ft c)));
    [|reflexivity].
  simpl in Hnone. now rewrite Hnone.
Qed.

Lemma same_oracle_prod (env1 env2 : Env) :
  same_oracle env1 env2 -> get_prod_locations env1 = get_prod_locations env2.
Proof. intros [Hp _]. unfold get_prod_locations. now rewrite Hp. Qed.

Lemma same_oracle_location (env1 env2 : Env) (serial_no : string) :
  same_oracle env1 env2 ->
  check_container_current_location env1 serial_no
  = check_container_current_location env2 serial_no.
Proof.
  intros [_ Hc].
  unfold check_container_current_location, get_container_by_serial_no.
  now rewrite Hc.
Qed.

Lemma flag_requests_same_oracle
  (entry : Requests.row -> string -> Container.dict) (env1 env2 : Env)
  (prod : list string) (rows : list Requests.row) :
  same_oracle env1 env2 ->
  flag_requests entry env1 prod rows = flag_requests entry env2 prod rows.
Proof.
  intros Hsame. induction rows as [|x rows IH]; simpl; [reflexivity|].
  rewrite IH, (same_oracle_location env1 env2 _ Hsame). reflexivity.
Qed.

(** Among the rows that came through a round of retirement, none is flagged
    with a container that can be deleted in the second round: it was flagged
    in the first round too and was spared there. *)
Lemma flagged_again_not_deletable
  (entry : Requests.row -> string -> Container.dict) (ft : string)
  (env1 env2 : Env) (prod : list string) (rows rows' : list Requests.row)
  (c : Container.dict) :
  keeps_identity entry -> same_oracle env1 env2 -> no_healthier env1 env2 ->
  (forall r, In r rows' ->
     In r rows /\ survives env1 ft (flag_requests entry env1 prod rows) r = true) ->
  In c (flag_requests entry env2 prod rows') ->
  deletable env2 ft c = false.
Proof.
  intros Hentry Hsame Hworse Hrows Hc.
  rewrite <- (flag_requests_same_oracle entry env1 env2 prod rows' Hsame) in Hc.
  destruct (flag_requests_sound entry env1 prod rows' c Hc)
    as (r & loc & Hin & -> & Hpb & Hloc & Ht & Hp).
  destruct (Hrows r Hin) as [Hin0 Hsurv].
  assert (Hflagged : In (entry r loc) (flag_requests entry env1 prod rows))
    by (now apply flag_requests_complete).
  destruct (deletable env2 ft (entry r loc)) eqn:Hdel; [|reflexivity].
  apply Hworse in Hdel.
  unfold survives in Hsurv. apply negb_true_iff in Hsurv.
  assert (Hex : existsb
                  (fun c => deletable env1 ft c
                            && has_req_id (Container.req_id c) r)
                  (flag_requests entry env1 prod rows) = true).
  { apply existsb_exists. exists (entry r loc). split; [exact Hflagged|].
    rewrite Hdel. destruct (Hentry r loc) as (-> & _).
    unfold has_req_id. now rewrite Z.eqb_refl. }
  congruence.
Qed.

Lemma requests_automated (env : Env) (w : World) :
  REQUESTS (automated_container_cleanup env w)
  = filter (survives env "auto_cleanup" (retired_by_scheduled env w))
      (REQUESTS w).
Proof.
  destruct (automated_tables env w) as (-> & _ & _).
  apply requests_after_retirement.
Qed.

Lemma flagged_by_scheduled_ext (env1 env2 : Env) (w w' : World) :
  same_oracle env1 env2 -> REQUESTS w = REQUESTS w' ->
  flagged_by_scheduled env1 w = flagged_by_scheduled env2 w'.
Proof.
  intros Hsame H. unfold flagged_by_scheduled, select_active_requests.
  rewrite H, (same_oracle_prod env1 env2 Hsame).
  destruct (get_prod_locations env2); [|reflexivity].
  now apply flag_requests_same_oracle.
Qed.

(** What the second scheduled pass would retire cannot be deleted. *)
Lemma second_scheduled_pass_not_deletable (env1 env2 : Env) (w : World)
  (c : Container.dict) :
  same_oracle env1 env2 -> no_healthier env1 env2 ->
  In c (retired_by_scheduled env2 (automated_container_cleanup env1 w)) ->
  deletable env2 "auto_cleanup" c = false.
Proof.
  intros Hsame Hworse.
  set (w1 := automated_container_cleanup env1 w).
  assert (HR : REQUESTS w1
               = filter (survives env1 "auto_cleanup" (retired_by_scheduled env1 w))
                   (REQUESTS w)) by apply requests_automated.
  unfold retired_by_scheduled in HR |- *.
  destruct (safety_limit <? List.length (flagged_by_scheduled env1 w))%nat
    eqn:Hgate.
  - assert (Hsame_rows : REQUESTS w = REQUESTS w1)
      by (rewrite HR; symmetry; now apply filter_all_true).
    rewrite <- (flagged_by_scheduled_ext env1 env2 w w1 Hsame Hsame_rows), Hgate.
    contradiction.
  - destruct (safety_limit <? List.length (flagged_by_scheduled env2 w1))%nat;
      [contradiction|].
    unfold flagged_by_scheduled in *.
    rewrite <- (same_oracle_prod env1 env2 Hsame).
    destruct (get_prod_locations env1) as [prod|msg]; [|contradiction].
    apply (flagged_again_not_deletable flagged_entry "auto_cleanup" env1 env2
             prod (select_active_requests w) (select_active_requests w1));
      auto using flagged_entry_keeps_identity.
    intros r Hr. apply in_select_active_requests in Hr.
    rewrite HR in Hr. apply filter_In in Hr. destruct Hr as [Hin Hs].
    split; [now apply in_select_active_requests|exact Hs].
Qed.

Lemma second_manual_pass_not_deletable (env1 env2 : Env) (w : World)
  (c : Container.dict) :
  same_oracle env1 env2 -> no_healthier env1 env2 ->
  In c (flagged_by_manual env2 (snd (manual_container_cleanup env1 w))) ->
  deletable env2 "manual_cleanup" c = false.
Proof.
  intros Hsame Hworse.
  set (w1 := snd (manual_container_cleanup env1 w)).
  assert (HR : REQUESTS w1
               = filter (survives env1 "manual_cleanup" (flagged_by_manual env1 w))
                   (REQUESTS w)).
  { unfold w1. rewrite manual_world. apply requests_after_retirement. }
  unfold flagged_by_manual in *.
  rewrite <- (same_oracle_prod env1 env2 Hsame).
  destruct (get_prod_locations env1) as [prod|msg]; [|contradiction].
  apply (flagged_again_not_deletable container_info "manual_cleanup" env1 env2
           prod (select_active_requests w) (select_active_requests w1));
    auto using container_info_keeps_identity.
  intros r Hr. apply in_select_active_requests in Hr.
  rewrite HR in Hr. apply filter_In in Hr. destruct Hr as [Hin Hs].
  split; [now apply in_select_active_requests|exact Hs].
Qed.

(** C9, as amended. Let a pass be run twice, the ERP answering the same in
    both runs, and let the storage let nothing through in the second run
    that it did not let through in the first (as when no statement failed
    in the first run, or when the same statements fail in both). Then the
    second run deletes nothing: the active table after the second run is
    the table after the first, and the second run adds no delete to the
    journal. This holds of the scheduled pass and of the manual clean-up. *)
Theorem second_pass_deletes_nothing (env1 env2 : Env) (w : World) :
  same_oracle env1 env2 -> no_healthier env1 env2 ->
  let w1 := automated_container_cleanup env1 w in
  let w2 := automated_container_cleanup env2 w1 in
  let m1 := snd (manual_container_cleanup env1 w) in
  let m2 := snd (manual_container_cleanup env2 m1) in
  REQUESTS w2 = REQUESTS w1
  /\ filter is_delete (journal w2) = filter is_delete (journal w1)
  /\ REQUESTS m2 = REQUESTS m1
  /\ filter is_delete (journal m2) = filter is_delete (journal m1).
Proof.
  intros Hsame Hworse. simpl. repeat split.
  - rewrite (requests_automated env2 (automated_container_cleanup env1 w)).
    apply filter_all_true. intros r _. apply survives_none_deletable.
    intros c. now apply second_scheduled_pass_not_deletable.
  - destruct (automated_tables env2 (automated_container_cleanup env1 w))
      as (_ & _ & ->).
    rewrite journal_apply_all, filter_app, no_delete_unless_deletable.
    + apply app_nil_r.
    + intros c. now apply second_scheduled_pass_not_deletable.
  - rewrite (manual_world env2 (snd (manual_container_cleanup env1 w))).
    rewrite requests_after_retirement.
    apply filter_all_true. intros r _. apply survives_none_deletable.
    intros c. now apply second_manual_pass_not_deletable.
  - rewrite (manual_world env2 (snd (manual_container_cleanup env1 w))).
    rewrite journal_apply_all, filter_app, no_delete_unless_deletable.
    + apply app_nil_r.
    + intros c. now apply second_manual_pass_not_deletable.
Qed.

Lemma same_oracle_refl (env : Env) : same_oracle env env.
Proof. now split. Qed.

Lemma second_pass_deletes_nothing_witness :
  REQUESTS
    (automated_container_cleanup history_down_env
       (automated_container_cleanup healthy_env mixed_requests))
  = REQUESTS (automated_container_cleanup healthy_env mixed_requests)
  /\ List.length (REQUESTS mixed_requests) = 4%nat
  /\ List.length
       (REQUESTS (automated_container_cleanup healthy_env mixed_requests))
     = 3%nat.
Proof.
  split; [|split; reflexivity].
  apply (second_pass_deletes_nothing healthy_env history_down_env mixed_requests).
  - split; reflexivity.
  - intros ft c _. reflexivity.
Defined.

(** C9, as stated, fails: the ERP reports the same in both runs, but the
    history table is unreachable during the first run and back for the
    second. The first run deletes nothing; the second deletes the request. *)
Lemma second_pass_deletes_after_history_recovers :
  erp_prod_locations healthy_env = erp_prod_locations history_down_env
  /\ erp_container healthy_env = erp_container history_down_env
  /\ REQUESTS (automated_container_cleanup history_down_env one_request)
     = REQUESTS one_request
  /\ REQUESTS
       (automated_container_cleanup healthy_env
          (automated_container_cleanup history_down_env one_request)) = [].
Proof. repeat split; vm_compute; reflexivity. Qed.

(** ** C10: the ids given to submitted requests *)

Lemma inserted_ids_app (j1 j2 : list statement) :
  inserted_ids (j1 ++ j2) = inserted_ids j1 ++ inserted_ids j2.
Proof.
  induction j1 as [|s j1 IH]; simpl; [reflexivity|].
  destruct s; simpl; now rewrite IH.
Qed.

Lemma inserted_ids_retirement (env : Env) (ft : string)
  (cs : list Container.dict) :
  inserted_ids (flat_map (retire_statements env ft) cs) = [].
Proof.
  induction cs as [|c cs IH]; simpl; [reflexivity|].
  rewrite inserted_ids_app, IH, app_nil_r. unfold retire_statements.
  destruct (goes_through env (InsertHistory (history_of env ft c)));
    [|reflexivity].
  now destruct (goes_through env (DeleteRequestById (Container.req_id c))).
Qed.

Lemma inserted_ids_automated (env : Env) (w : World) :
  inserted_ids (journal (automated_container_cleanup env w))
  = inserted_ids (journal w).
Proof.
  destruct (automated_tables env w) as (_ & _ & ->).
  now rewrite journal_apply_all, inserted_ids_app, inserted_ids_retirement,
    app_nil_r.
Qed.

Lemma inserted_ids_manual (env : Env) (w : World) :
  inserted_ids (journal (snd (manual_container_cleanup env w)))
  = inserted_ids (journal w).
Proof.
  now rewrite manual_world, journal_apply_all, inserted_ids_app,
    inserted_ids_retirement, app_nil_r.
Qed.

Lemma inserted_ids_delete_request (env : Env) (serial_no : string) (w : World) :
  inserted_ids (journal (snd (delete_request env serial_no w)))
  = inserted_ids (journal w).
Proof.
  unfold delete_request, log_request_to_history, execute.
  destruct (find (has_serial_no serial_no) (REQUESTS w)); [|reflexivity].
  destruct (storage_fault env (InsertHistory _));
    destruct (storage_fault env (DeleteRequestBySerial serial_no)); simpl;
    rewrite ?inserted_ids_app; simpl; now rewrite ?app_nil_r.
Qed.

(** The shared insert stores the row under the counter's value and moves
    the counter by one, or does neither. *)
Lemma insert_request_assigns (env : Env) (row : Requests.row) (g : Globals)
  (w : World) :
  Requests.req_id row = req_id g ->
  exists n,
    inserted_ids (journal (snd (insert_request env row g w)))
    = inserted_ids (journal w) ++ consecutive (req_id g) n
    /\ req_id (snd (fst (insert_request env row g w))) = req_id g + Z.of_nat n.
Proof.
  intros Hid. unfold insert_request, execute.
  destruct (storage_fault env (InsertRequest row)).
  - exists 0%nat. simpl. now rewrite app_nil_r, Z.add_0_r.
  - destruct (violates_key (InsertRequest row) w).
    + exists 0%nat. simpl. now rewrite app_nil_r, Z.add_0_r.
    + exists 1%nat. simpl. now rewrite inserted_ids_app, <- Hid.
Qed.

Lemma serve_assigns (env : Env) (c : call) (g : Globals) (w : World) :
  exists n,
    inserted_ids (journal (snd (serve env c (g, w))))
    = inserted_ids (journal w) ++ consecutive (req_id g) n
    /\ req_id (fst (serve env c (g, w))) = req_id g + Z.of_nat n.
Proof.
  assert (Hnone : forall w', inserted_ids (journal w') = inserted_ids (journal w) ->
                  exists n,
                    inserted_ids (journal w')
                    = inserted_ids (journal w) ++ consecutive (req_id g) n
                    /\ req_id g = req_id g + Z.of_nat n).
  { intros w' H. exists 0%nat. simpl. now rewrite H, app_nil_r, Z.add_0_r. }
  destruct c as [part_no serial_no data|master_unit data|serial_no| |]; simpl.
  - unfold request_serial_no.
    match goal with
    | |- context [insert_request env ?row g w] =>
        destruct (insert_request_assigns env row g w eq_refl) as (n & Hj & Hg);
        destruct (insert_request env row g w) as [[[|] g'] w']
    end; exists n; auto.
  - unfold request_master_unit.
    destruct (get_containers_by_master_unit env master_unit w);
      [now apply Hnone|].
    destruct (map fst (filter (fun c => negb (snd c)) (p :: l)));
      [now apply Hnone|].
    match goal with
    | |- context [insert_request env ?row g w] =>
        destruct (insert_request_assigns env row g w eq_refl) as (n & Hj & Hg);
        destruct (insert_request env row g w) as [[[|] g'] w']
    end; exists n; auto.
  - apply Hnone, inserted_ids_delete_request.
  - apply Hnone, inserted_ids_manual.
  - apply Hnone, inserted_ids_automated.
Qed.

Lemma consecutive_app (first : Z) (n m : nat) :
  consecutive first (n + m)
  = consecutive first n ++ consecutive (first + Z.of_nat n) m.
Proof.
  revert first. induction n as [|n IH]; intros first.
  - simpl. now rewrite Z.add_0_r.
  - cbn [consecutive Nat.add app]. rewrite IH. do 3 f_equal. lia.
Qed.

Lemma in_consecutive (first : Z) (n : nat) (k : Z) :
  In k (consecutive first n) -> first <= k.
Proof.
  revert first. induction n as [|n IH]; intros first; simpl; [contradiction|].
  intros [<- | H]; [lia|]. apply IH in H. lia.
Qed.

Lemma consecutive_NoDup (first : Z) (n : nat) : NoDup (consecutive first n).
Proof.
  revert first. induction n as [|n IH]; intros first; simpl; constructor.
  - intros H. apply in_consecutive in H. lia.
  - apply IH.
Qed.

(** C10, as amended. Within one process lifetime, started with the counter
    at [req_id g], the requests inserted by the calls served are stored, in
    the order of their insertion, under the ids [req_id g], [req_id g + 1],
    ... without gap or repetition, and the counter ends just past the last
    of them. Nothing is said across a restart, where the counter starts
    again at 0. *)
Theorem lifetime_assigns_consecutive_ids (calls : list (Env * call))
  (g : Globals) (w : World) :
  exists n,
    inserted_ids (journal (snd (lifetime calls (g, w))))
    = inserted_ids (journal w) ++ consecutive (req_id g) n
    /\ req_id (fst (lifetime calls (g, w))) = req_id g + Z.of_nat n
    /\ NoDup (consecutive (req_id g) n).
Proof.
  revert g w. induction calls as [|[env c] calls IH]; intros g w.
  - exists 0%nat. simpl. rewrite app_nil_r, Z.add_0_r. repeat split. constructor.
  - cbn [lifetime]. destruct (serve_assigns env c g w) as (n & Hj & Hg).
    destruct (serve env c (g, w)) as [g1 w1]. cbn [fst snd] in Hj, Hg.
    destruct (IH g1 w1) as (m & Hj' & Hg' & _).
    exists (n + m)%nat. rewrite Hj', Hj, Hg', Hg, consecutive_app.
    repeat split.
    + now rewrite app_assoc.
    + lia.
    + rewrite <- consecutive_app. apply consecutive_NoDup.
Qed.

(** C10, as stated, fails across a restart: the first request is submitted
    under id 0 and deleted by hand, which leaves its history record; after
    the restart a different request is stored under id 0 again. *)
Lemma req_id_reused_after_restart :
  let first_run :=
    lifetime
      [(healthy_env, POST_part_serial "P-100" "S1001" sample_submission);
       (healthy_env, DELETE_api_requests "S1001")]
      (startup, world_of []) in
  let second_run :=
    lifetime
      [(healthy_env, POST_part_serial "P-100" "S2002" sample_submission)]
      (restart first_run) in
  map (fun h => (History.req_id h, History.serial_no h))
    (REQUESTS_HISTORY (snd second_run)) = [(0, "S1001")]
  /\ map (fun r => (Requests.req_id r, Requests.serial_no r))
       (REQUESTS (snd second_run)) = [(0, "S2002")].
Proof. vm_compute. tauto. Qed.

(** ** The key constraint is kept by every call *)

Lemma keyed_filter (f : Requests.row -> bool) (rows : list Requests.row) :
  keyed rows -> keyed (filter f rows).
Proof.
  unfold keyed. induction rows as [|x rows IH]; simpl; intros Hk; [exact Hk|].
  inversion Hk as [|? ? Hnot Hk']; subst.
  destruct (f x); simpl; [constructor|]; auto.
  intros Hin. apply Hnot. apply in_map_iff in Hin.
  destruct Hin as (y & Hy & Hin). apply filter_In in Hin.
  apply in_map_iff. exists y. tauto.
Qed.

Lemma keyed_insert (row : Requests.row) (rows : list Requests.row) :
  keyed rows -> existsb (has_req_id (Requests.req_id row)) rows = false ->
  keyed (rows ++ [row]).
Proof.
  unfold keyed. intros Hk Hfresh. rewrite map_app. simpl.
  apply NoDup_app; [exact Hk|repeat constructor; simpl; tauto|].
  intros k Hin [<- | []].
  apply in_map_iff in Hin. destruct Hin as (y & Hy & Hin).
  assert (Hex : existsb (has_req_id (Requests.req_id row)) rows = true).
  { apply existsb_exists. exists y. split; [exact Hin|].
    unfold has_req_id. now apply Z.eqb_eq. }
  congruence.
Qed.

Lemma execute_keeps_key (env : Env) (s : statement) (w w' : World) :
  keyed (REQUESTS w) -> execute env s w = Ok w' -> keyed (REQUESTS w').
Proof.
  intros Hk. unfold execute.
  destruct (storage_fault env s); [discriminate|].
  destruct (violates_key s w) eqn:Hv; [discriminate|].
  intros H. inversion H; subst. destruct s; simpl; auto using keyed_filter.
  now apply keyed_insert.
Qed.

Lemma serve_keeps_key (env : Env) (c : call) (g : Globals) (w : World) :
  keyed (REQUESTS w) -> keyed (REQUESTS (snd (serve env c (g, w)))).
Proof.
  intros Hk.
  assert (Hins : forall row, keyed (REQUESTS (snd (insert_request env row g w)))).
  { intros row. unfold insert_request.
    destruct (execute env (InsertRequest row) w) eqn:He; [|exact Hk].
    simpl. now apply (execute_keeps_key env (InsertRequest row) w). }
  destruct c as [part_no serial_no data|master_unit data|serial_no| |]; simpl.
  - unfold request_serial_no.
    match goal with
    | |- context [insert_request env ?row g w] =>
        specialize (Hins row);
        destruct (insert_request env row g w) as [[[|] g'] w']
    end; exact Hins.
  - unfold request_master_unit.
    destruct (get_containers_by_master_unit env master_unit w); [exact Hk|].
    destruct (map fst (filter (fun c => negb (snd c)) (p :: l))); [exact Hk|].
    match goal with
    | |- context [insert_request env ?row g w] =>
        specialize (Hins row);
        destruct (insert_request env row g w) as [[[|] g'] w']
    end; exact Hins.
  - unfold delete_request, log_request_to_history.
    destruct (find (has_serial_no serial_no) (REQUESTS w)); [|exact Hk].
    match goal with
    | |- context [execute env (InsertHistory ?h) w] =>
        destruct (execute env (InsertHistory h) w) as [w1|msg] eqn:Hh
    end.
    + apply (execute_keeps_key env _ w w1 Hk) in Hh.
      destruct (execute env (DeleteRequestBySerial serial_no) w1) eqn:Hd;
        [|exact Hh].
      now apply (execute_keeps_key env _ w1 a Hh) in Hd.
    + destruct (execute env (DeleteRequestBySerial serial_no) w) eqn:Hd;
        [|exact Hk].
      now apply (execute_keeps_key env _ w a Hk) in Hd.
  - rewrite manual_world, requests_after_retirement. now apply keyed_filter.
  - rewrite requests_automated. now apply keyed_filter.
Qed.

(** Every table reached from a keyed one is keyed; the empty table is. *)
Lemma lifetime_keeps_key (calls : list (Env * call)) (g : Globals) (w : World) :
  keyed (REQUESTS w) -> keyed (REQUESTS (snd (lifetime calls (g, w)))).
Proof.
  revert g w. induction calls as [|[env c] calls IH]; intros g w Hk;
    [exact Hk|].
  cbn [lifetime]. pose proof (serve_keeps_key env c g w Hk) as Hk1.
  destruct (serve env c (g, w)) as [g1 w1]. now apply IH.
Qed.

(** ** Where the manual pass and the scheduled pass agree *)

Lemma flag_requests_same_ids
  (entry entry' : Requests.row -> string -> Container.dict) (env : Env)
  (prod : list string) (rows : list Requests.row) :
  keeps_identity entry -> keeps_identity entry' ->
  map Container.req_id (flag_requests entry env prod rows)
  = map Container.req_id (flag_requests entry' env prod rows).
Proof.
  intros He He'. induction rows as [|x rows IH]; simpl; [reflexivity|].
  destruct (is_put_back x); [exact IH|].
  destruct (check_container_current_location env (Requests.serial_no x))
    as [loc|]; [|exact IH].
  destruct (truthy (Some loc) && py_in loc prod); [|exact IH].
  simpl. rewrite IH. destruct (He x loc) as (-> & _).
  now destruct (He' x loc) as (-> & _).
Qed.

Lemma survives_no_fault (env : Env) (ft : string) (cs : list Container.dict)
  (r : Requests.row) :
  (forall s, storage_fault env s = None) ->
  survives env ft cs r
  = negb (existsb (fun k => Z.eqb (Requests.req_id r) k)
            (map Container.req_id cs)).
Proof.
  intros Hok. unfold survives. f_equal.
  induction cs as [|c cs IH]; simpl; [reflexivity|].
  rewrite IH. unfold deletable, goes_through. now rewrite !Hok.
Qed.

(** X9. With the storage sound and no more than ten requests flagged, the
    manual clean-up leaves the same active table as the scheduled pass. *)
Lemma manual_agrees_below_limit (env : Env) (w : World) :
  (forall s, storage_fault env s = None) ->
  (List.length (flagged_by_scheduled env w) <= safety_limit)%nat ->
  REQUESTS (snd (manual_container_cleanup env w))
  = REQUESTS (automated_container_cleanup env w).
Proof.
  intros Hok Hlimit.
  rewrite manual_world, requests_after_retirement, requests_automated.
  unfold retired_by_scheduled.
  apply Nat.ltb_ge in Hlimit. rewrite Hlimit.
  apply filter_ext. intros r. rewrite !survives_no_fault by exact Hok.
  do 2 f_equal. unfold flagged_by_manual, flagged_by_scheduled.
  destruct (get_prod_locations env) as [prod|msg]; [|reflexivity].
  apply flag_requests_same_ids.
  - apply container_info_keeps_identity.
  - apply flagged_entry_keeps_identity.
Qed.

(** ** The audit writer: all or nothing *)

(** X1. [log_request_to_history] either appends exactly the one history row
    and reports success, or reports failure and leaves the world as it was;
    in neither case does it touch the active table or send anything. *)
Theorem log_request_to_history_all_or_nothing (env : Env) (req_id : Z)
  (serial_no part_no revision : string) (quantity : Q)
  (location deliver_to : string) (req_time : datetime)
  (current_location fulfillment_type : string) (request_type : option string)
  (w : World) :
  let h :=
    history_row env req_id serial_no part_no revision quantity location
      deliver_to req_time current_location fulfillment_type request_type in
  let out :=
    log_request_to_history env req_id serial_no part_no revision quantity
      location deliver_to req_time current_location fulfillment_type
      request_type w in
  REQUESTS (snd out) = REQUESTS w
  /\ sent (snd out) = sent w
  /\ (fst out = true ->
      REQUESTS_HISTORY (snd out) = REQUESTS_HISTORY w ++ [h]
      /\ journal (snd out) = journal w ++ [InsertHistory h])
  /\ (fst out = false -> snd out = w)
  /\ (fst out = true <-> storage_fault env (InsertHistory h) = None).
Proof.
  simpl. unfold log_request_to_history, execute.
  destruct (storage_fault env (InsertHistory _)) as [msg|]; simpl.
  - repeat split; try discriminate; auto.
  - repeat split; try discriminate; auto.
Qed.

(** ** The passes: what is retired and what is kept *)

Lemma history_apply_all (ss : list statement) (w : World) :
  REQUESTS_HISTORY (apply_all ss w) = REQUESTS_HISTORY w ++ history_inserts ss.
Proof.
  revert w. induction ss as [|s ss IH]; intros w; simpl.
  - now rewrite app_nil_r.
  - unfold apply_all in IH. rewrite IH. destruct s; simpl; auto.
    now rewrite <- app_assoc.
Qed.

Lemma history_inserts_retirement (env : Env) (ft : string)
  (cs : list Container.dict) :
  history_inserts (flat_map (retire_statements env ft) cs)
  = map (history_of env ft) (filter (history_goes_through env ft) cs).
Proof.
  unfold history_inserts.
  induction cs as [|c cs IH]; simpl; [reflexivity|].
  rewrite flat_map_app, IH. unfold retire_statements, history_goes_through.
  destruct (goes_through env (InsertHistory (history_of env ft c)));
    [|reflexivity].
  now destruct (goes_through env (DeleteRequestById (Container.req_id c))).
Qed.

Lemma retired_by_scheduled_bounded (env : Env) (w : World) :
  (List.length (retired_by_scheduled env w) <= safety_limit)%nat.
Proof.
  unfold retired_by_scheduled.
  destruct (safety_limit <? List.length (flagged_by_scheduled env w))%nat
    eqn:Hgate; [simpl; lia|].
  now apply Nat.ltb_ge in Hgate.
Qed.

(** In a keyed table the delete of one [req_id] removes at most one row. *)
Lemma keyed_delete_one (b : bool) (k : Z) (rows : list Requests.row) :
  keyed rows ->
  (List.length rows
   <= List.length (filter (fun r => negb (b && has_req_id k r)) rows) + 1)%nat.
Proof.
  unfold keyed. induction rows as [|x rows IH]; simpl; intros Hk; [lia|].
  inversion Hk as [|? ? Hnot Hk']; subst.
  destruct (b && has_req_id k x) eqn:Hhit; simpl; [|specialize (IH Hk'); lia].
  apply andb_true_iff in Hhit. destruct Hhit as [-> Hid].
  unfold has_req_id in Hid. apply Z.eqb_eq in Hid.
  rewrite filter_all_true; [lia|].
  intros y Hy. simpl. apply negb_true_iff. unfold has_req_id.
  apply Z.eqb_neq. intros Heq. apply Hnot. rewrite Hid, <- Heq.
  now apply in_map.
Qed.

Lemma keyed_retirement_bounded (env : Env) (ft : string)
  (cs : list Container.dict) (rows : list Requests.row) :
  keyed rows ->
  (List.length rows
   <= List.length (filter (survives env ft cs) rows) + List.length cs)%nat.
Proof.
  revert rows. induction cs as [|c cs IH]; intros rows Hk.
  - rewrite filter_all_true by reflexivity. simpl. lia.
  - assert (Hsplit : filter (survives env ft (c :: cs)) rows
                     = filter (survives env ft cs)
                         (filter (fun r => negb (deletable env ft c
                                                 && has_req_id (Container.req_id c) r))
                            rows)).
    { rewrite filter_filter. apply filter_ext. intros r. unfold survives.
      simpl. now rewrite negb_orb. }
    rewrite Hsplit.
    pose proof (keyed_delete_one (deletable env ft c) (Container.req_id c) rows Hk).
    pose proof (IH _ (keyed_filter
                        (fun r => negb (deletable env ft c
                                        && has_req_id (Container.req_id c) r))
                        rows Hk)).
    simpl. lia.
Qed.

(** X2. A request whose history insert fails is still in the active table
    after the scheduled pass and after the manual clean-up: no delete is
    issued without the audit record. The table is keyed by [req_id]. *)
Theorem failed_history_write_keeps_request (env : Env) (w : World)
  (r : Requests.row) :
  keyed (REQUESTS w) -> In r (REQUESTS w) ->
  history_fails_for env (Requests.req_id r) ->
  In r (REQUESTS (automated_container_cleanup env w))
  /\ In r (REQUESTS (snd (manual_container_cleanup env w))).
Proof.
  intros Hk Hin Hfail.
  assert (Hnot : forall ft c, Container.req_id c = Requests.req_id r ->
                              deletable env ft c = false).
  { intros ft c Hid. unfold deletable, goes_through.
    destruct (storage_fault env (InsertHistory (history_of env ft c))) eqn:Hf;
      [reflexivity|].
    exfalso. apply (Hfail (history_of env ft c)); [exact Hid|exact Hf]. }
  assert (Hsurv : forall ft cs, survives env ft cs r = true).
  { intros ft cs. unfold survives. apply negb_true_iff.
    destruct (existsb _ cs) eqn:Hex; [|reflexivity].
    apply existsb_exists in Hex. destruct Hex as (c & _ & Hhit).
    apply andb_true_iff in Hhit. destruct Hhit as [Hdel Hid].
    unfold has_req_id in Hid. apply Z.eqb_eq in Hid.
    rewrite (Hnot ft c (eq_sym Hid)) in Hdel. discriminate. }
  split.
  - rewrite requests_automated. apply filter_In. auto.
  - rewrite manual_world, requests_after_retirement. apply filter_In. auto.
Qed.

Lemma failed_history_write_keeps_request_witness :
  In (pick_up 0 "S1001")
    (REQUESTS (automated_container_cleanup history_down_for_0_env mixed_requests))
  /\ In (pick_up 0 "S1001")
       (REQUESTS (snd (manual_container_cleanup history_down_for_0_env
                         mixed_requests))).
Proof.
  apply (failed_history_write_keeps_request history_down_for_0_env
           mixed_requests (pick_up 0 "S1001") keyed_mixed_requests).
  - simpl. tauto.
  - intros h Hid. simpl in Hid. simpl. rewrite Hid. discriminate.
Defined.

(** X3. When the scheduled pass gets past the safety limit, every request
    that is not a put-back, whose looked-up location is a production
    location, and whose history insert and delete the storage lets through,
    is gone from the active table afterwards, and its history row, with the
    looked-up location, is in the history table. *)
Theorem located_in_production_is_retired (env : Env) (w : World)
  (prod : list string) (r : Requests.row) (loc : string) :
  get_prod_locations env = Ok prod ->
  (List.length (flagged_by_scheduled env w) <= safety_limit)%nat ->
  In r (REQUESTS w) -> is_put_back r = false ->
  check_container_current_location env (Requests.serial_no r) = Some loc ->
  truthy (Some loc) = true -> py_in loc prod = true ->
  deletable env "auto_cleanup" (flagged_entry r loc) = true ->
  ~ In r (REQUESTS (automated_container_cleanup env w))
  /\ In (history_of env "auto_cleanup" (flagged_entry r loc))
       (REQUESTS_HISTORY (automated_container_cleanup env w))
  /\ History.current_location
       (history_of env "auto_cleanup" (flagged_entry r loc)) = loc.
Proof.
  intros Hprod Hlimit Hin Hpb Hloc Ht Hp Hdel.
  assert (Hflagged : In (flagged_entry r loc) (retired_by_scheduled env w)).
  { unfold retired_by_scheduled. apply Nat.ltb_ge in Hlimit. rewrite Hlimit.
    unfold flagged_by_scheduled. rewrite Hprod.
    apply flag_requests_complete; auto. now apply in_select_active_requests. }
  split; [|split; [|reflexivity]].
  - rewrite requests_automated. intros Hstay. apply filter_In in Hstay.
    destruct Hstay as [_ Hs]. unfold survives in Hs.
    apply negb_true_iff in Hs.
    assert (Hex : existsb
                    (fun c => deletable env "auto_cleanup" c
                              && has_req_id (Container.req_id c) r)
                    (retired_by_scheduled env w) = true).
    { apply existsb_exists. exists (flagged_entry r loc).
      split; [exact Hflagged|]. rewrite Hdel. unfold has_req_id. simpl.
      apply Z.eqb_refl. }
    congruence.
  - destruct (automated_tables env w) as (_ & -> & _).
    apply history_apply_all_in. apply in_flat_map.
    exists (flagged_entry r loc). split; [exact Hflagged|].
    unfold retire_statements. unfold deletable in Hdel.
    apply andb_true_iff in Hdel. destruct Hdel as [-> _]. now left.
Qed.

Lemma located_in_production_is_retired_witness :
  ~ In (pick_up 0 "S1001")
      (REQUESTS (automated_container_cleanup healthy_env mixed_requests))
  /\ In (history_of healthy_env "auto_cleanup"
           (flagged_entry (pick_up 0 "S1001") "PROD-A"))
       (REQUESTS_HISTORY (automated_container_cleanup healthy_env mixed_requests))
  /\ History.current_location
       (history_of healthy_env "auto_cleanup"
          (flagged_entry (pick_up 0 "S1001") "PROD-A")) = "PROD-A".
Proof.
  apply (located_in_production_is_retired healthy_env mixed_requests
           sample_prod_locations (pick_up 0 "S1001") "PROD-A");
    try reflexivity.
  - apply Nat.leb_le. vm_compute. reflexivity.
  - simpl. tauto.
Defined.

(** X4. One scheduled pass writes at most ten history records, and from a
    table keyed by [req_id] it removes at most ten requests; it never adds
    a request. *)
Theorem scheduled_pass_is_bounded (env : Env) (w : World) :
  keyed (REQUESTS w) ->
  (List.length (REQUESTS_HISTORY (automated_container_cleanup env w))
   <= List.length (REQUESTS_HISTORY w) + 10)%nat
  /\ (List.length (REQUESTS w)
      <= List.length (REQUESTS (automated_container_cleanup env w)) + 10)%nat
  /\ (forall r, In r (REQUESTS (automated_container_cleanup env w)) ->
                In r (REQUESTS w)).
Proof.
  intros Hk. pose proof (retired_by_scheduled_bounded env w) as Hb.
  unfold safety_limit in Hb. split; [|split].
  - destruct (automated_tables env w) as (_ & -> & _).
    rewrite history_apply_all, history_inserts_retirement, length_app,
      length_map.
    pose proof (filter_length_le (history_goes_through env "auto_cleanup")
                  (retired_by_scheduled env w)).
    lia.
  - rewrite requests_automated.
    pose proof (keyed_retirement_bounded env "auto_cleanup"
                  (retired_by_scheduled env w) (REQUESTS w) Hk).
    lia.
  - intros r. rewrite requests_automated. intros Hr.
    now apply filter_In in Hr.
Qed.

Lemma scheduled_pass_is_bounded_witness :
  (List.length (REQUESTS_HISTORY (automated_container_cleanup healthy_env
                                    mixed_requests))
   <= List.length (REQUESTS_HISTORY mixed_requests) + 10)%nat
  /\ (List.length (REQUESTS mixed_requests)
      <= List.length (REQUESTS (automated_container_cleanup healthy_env
                                  mixed_requests)) + 10)%nat
  /\ (forall r, In r (REQUESTS (automated_container_cleanup healthy_env
                                  mixed_requests)) ->
                In r (REQUESTS mixed_requests)).
Proof.
  exact (scheduled_pass_is_bounded healthy_env mixed_requests
           keyed_mixed_requests).
Defined.

(** X5. Every history record that the scheduled pass writes has fulfilment
    type [auto_cleanup], belongs to a request of the active table that is
    not a put-back, and carries as current location the non-empty location
    the ERP gave for that request, which is one of the production locations
    fetched by the pass. *)
Theorem scheduled_pass_history_records (env : Env) (w : World) :
  exists added,
    REQUESTS_HISTORY (automated_container_cleanup env w)
    = REQUESTS_HISTORY w ++ added
    /\ forall h, In h added ->
         History.fulfillment_type h = "auto_cleanup"
         /\ History.current_location h <> ""
         /\ (exists prod, get_prod_locations env = Ok prod
                          /\ py_in (History.current_location h) prod = true)
         /\ exists r,
              In r (REQUESTS w) /\ is_put_back r = false
              /\ History.req_id h = Requests.req_id r
              /\ History.serial_no h = Requests.serial_no r
              /\ check_container_current_location env (Requests.serial_no r)
                 = Some (History.current_location h).
Proof.
  exists (map (history_of env "auto_cleanup")
            (filter (history_goes_through env "auto_cleanup")
               (retired_by_scheduled env w))).
  split.
  - destruct (automated_tables env w) as (_ & -> & _).
    now rewrite history_apply_all, history_inserts_retirement.
  - intros h Hh. apply in_map_iff in Hh. destruct Hh as (c & <- & Hc).
    apply filter_In in Hc. destruct Hc as [Hc _].
    apply retired_by_scheduled_flagged in Hc.
    unfold flagged_by_scheduled in Hc.
    destruct (get_prod_locations env) as [prod|msg] eqn:Hprod;
      [|contradiction].
    apply flag_requests_sound in Hc.
    destruct Hc as (r & loc & Hin & -> & Hpb & Hloc & Ht & Hp).
    apply in_select_active_requests in Hin.
    split; [reflexivity|]. split; [|split].
    + simpl. simpl in Ht. intros ->. discriminate.
    + exists prod. now split.
    + exists r. repeat split; auto.
Qed.

(** ** The manual clean-up: what it reports *)

Lemma retire_fst (env : Env) (ft : string) (c : Container.dict) (w : World) :
  fst (retire env ft c w)
  = if history_goes_through env ft c
    then match storage_fault env (DeleteRequestById (Container.req_id c)) with
         | None => Deleted
         | Some msg => DeleteRaised msg
         end
    else HistoryNotLogged.
Proof.
  unfold retire, log_request_to_history, history_goes_through, goes_through,
    execute.
  fold (history_of env ft c).
  destruct (storage_fault env (InsertHistory (history_of env ft c)));
    [reflexivity|].
  simpl.
  now destruct (storage_fault env (DeleteRequestById (Container.req_id c))).
Qed.

(** Each flagged container ends either in a delete or in one error entry. *)
Lemma retire_all_accounting (env : Env) (ft : string)
  (cs : list Container.dict) (w : World) :
  (List.length (errors_of cs (fst (retire_all env ft cs w)))
   + List.length (filter is_delete (flat_map (retire_statements env ft) cs))
   = List.length cs)%nat.
Proof.
  revert w. induction cs as [|c cs IH]; intros w; [reflexivity|].
  cbn [retire_all flat_map].
  pose proof (retire_fst env ft c w) as Ho.
  destruct (retire env ft c w) as [o w1]. cbn [fst] in Ho.
  specialize (IH w1). destruct (retire_all env ft cs w1) as [os w2].
  cbn [fst errors_of] in *. rewrite filter_app, !length_app. subst o.
  set (rest := List.length
                 (filter is_delete (flat_map (retire_statements env ft) cs)))
    in *.
  unfold retire_statements, history_goes_through, goes_through.
  destruct (storage_fault env (InsertHistory (history_of env ft c)));
    [simpl; lia|].
  destruct (storage_fault env (DeleteRequestById (Container.req_id c)));
    simpl; lia.
Qed.

(** X6. Whenever the manual clean-up returns its result dictionary, the
    dictionary has status [success], whatever happened to the single
    containers. Its [prod_locations] are the fetched ones,
    [checked_requests] is the size of the active table and
    [removed_containers] the number of flagged containers, listed under
    [containers_removed]; each flagged container was either deleted or has
    one entry in [errors], so the number really deleted is
    [removed_containers] less the number of errors. *)
Theorem manual_cleanup_accounting (env : Env) (w : World) (r : results) :
  fst (manual_container_cleanup env w) = Results r ->
  status r = "success"
  /\ get_prod_locations env = Ok (prod_locations r)
  /\ checked_requests r = List.length (REQUESTS w)
  /\ containers_removed r = flagged_by_manual env w
  /\ removed_containers r = List.length (containers_removed r)
  /\ (List.length (errors r)
      + List.length (filter is_delete
                       (journal (snd (manual_container_cleanup env w))))
      = removed_containers r + List.length (filter is_delete (journal w)))%nat.
Proof.
  pose proof (manual_world env w) as Hw.
  unfold manual_container_cleanup, flagged_by_manual in *.
  destruct (get_prod_locations env) as [prod|msg]; [|discriminate].
  pose proof (retire_all_accounting env "manual_cleanup"
                (flag_requests container_info env prod (select_active_requests w))
                w) as Hacc.
  destruct (retire_all env "manual_cleanup"
              (flag_requests container_info env prod (select_active_requests w))
              w) as [os w1].
  cbn [fst snd] in *. subst w1. intros Hr. inversion Hr; subst r. cbn.
  rewrite length_select_active_requests.
  repeat split.
  rewrite journal_apply_all, filter_app, length_app. lia.
Qed.

(** With the history table unreachable, the one flagged request of four is
    reported as removed and as an error, and nothing is deleted. *)
Lemma manual_cleanup_accounting_witness :
  exists r,
    fst (manual_container_cleanup history_down_env mixed_requests) = Results r
    /\ status r = "success"
    /\ checked_requests r = 4%nat
    /\ removed_containers r = 1%nat
    /\ List.length (errors r) = 1%nat
    /\ List.length (filter is_delete
                      (journal (snd (manual_container_cleanup history_down_env
                                       mixed_requests)))) = 0%nat.
Proof.
  destruct (manual_container_cleanup history_down_env mixed_requests)
    as [[r|msg] w'] eqn:Hrun; [|vm_compute in Hrun; discriminate].
  exists r. split; [reflexivity|].
  destruct (manual_cleanup_accounting history_down_env mixed_requests r)
    as (Hstatus & _ & Hchecked & Hlisted & Hremoved & Hsum).
  - now rewrite Hrun.
  - rewrite Hrun in Hsum. cbn [snd] in Hsum.
    assert (Hw' : w' = snd (manual_container_cleanup history_down_env
                             mixed_requests)) by now rewrite Hrun.
    assert (Hone : List.length
                     (flagged_by_manual history_down_env mixed_requests)
                   = 1%nat) by (vm_compute; reflexivity).
    assert (Hnone : List.length (filter is_delete (journal w')) = 0%nat)
      by (rewrite Hw'; vm_compute; reflexivity).
    rewrite Hlisted in Hremoved. rewrite Hone in Hremoved.
    rewrite Hremoved, Hnone in Hsum. simpl in Hsum.
    repeat split; try assumption. lia.
Defined.

(** X7. With an empty list of production locations the manual clean-up
    leaves the world as it was. It does not stop early as the scheduled pass
    does: the result dictionary, when that is what it returns, reports
    success with the size of the active table as [checked_requests] and
    nothing removed. *)
Theorem manual_cleanup_without_production_locations (env : Env) (w : World) :
  get_prod_locations env = Ok [] ->
  snd (manual_container_cleanup env w) = w
  /\ forall r,
       fst (manual_container_cleanup env w) = Results r ->
       r = mk_results "success" (List.length (REQUESTS w)) 0 [] [] [].
Proof.
  intros Hprod. unfold manual_container_cleanup. rewrite Hprod.
  rewrite flag_requests_no_prod, length_select_active_requests. simpl.
  split; [reflexivity|]. intros r Hr. now inversion Hr.
Qed.

Lemma manual_cleanup_without_production_locations_witness :
  snd (manual_container_cleanup prod_timeout_env mixed_requests)
  = mixed_requests
  /\ forall r,
       fst (manual_container_cleanup prod_timeout_env mixed_requests)
       = Results r ->
       r = mk_results "success" (List.length (REQUESTS mixed_requests)) 0
             [] [] [].
Proof.
  apply (manual_cleanup_without_production_locations prod_timeout_env
           mixed_requests).
  reflexivity.
Defined.

(** X8. The manual trigger passes on what the manual clean-up returns and
    changes nothing itself. It answers 200 whenever that is the result
    dictionary, also when history writes or deletes failed and are listed
    under [errors], and 500 whenever it is the error dictionary; when the
    fetch of the production locations raised, the answer is 500 and the
    world is unchanged. *)
Theorem trigger_manual_cleanup_status (env : Env) (w : World) :
  let out := trigger_manual_cleanup env w in
  snd (fst out) = fst (manual_container_cleanup env w)
  /\ snd out = snd (manual_container_cleanup env w)
  /\ (forall r, fst (manual_container_cleanup env w) = Results r ->
                fst (fst out) = 200)
  /\ (forall message,
        fst (manual_container_cleanup env w) = ErrorReturn message ->
        fst (fst out) = 500)
  /\ (forall msg, get_prod_locations env = Raised msg ->
                  fst (fst out) = 500 /\ snd out = w).
Proof.
  simpl. unfold trigger_manual_cleanup, manual_container_cleanup.
  destruct (get_prod_locations env) as [prod|msg].
  - destruct (retire_all env "manual_cleanup"
                (flag_requests container_info env prod (select_active_requests w))
                w) as [os w1].
    simpl. repeat split; auto; discriminate.
  - simpl. repeat split; auto; discriminate.
Qed.

Lemma manual_agrees_below_limit_witness :
  REQUESTS (snd (manual_container_cleanup healthy_env mixed_requests))
  = REQUESTS (automated_container_cleanup healthy_env mixed_requests).
Proof.
  apply (manual_agrees_below_limit healthy_env mixed_requests).
  - reflexivity.
  - apply Nat.leb_le. vm_compute. reflexivity.
Defined.

(** ** The completion event: what a pass may send *)

(** X10. Every completion event that the scheduled pass sends carries the
    size of the active table, put-backs included, as [checked_requests],
    and the number and the summaries of the flagged containers as
    [removed_containers] and [containers_removed]; it is sent only when
    production locations were fetched and the flagged containers are
    within the safety limit. The events sent before the pass stay. *)
Theorem completion_event_fields (env : Env) (w : World) :
  exists events,
    sent (automated_container_cleanup env w) = sent w ++ events
    /\ forall checked removed listed timestamp,
         In (auto_cleanup_complete checked removed listed timestamp) events ->
         checked = List.length (REQUESTS w)
         /\ removed = List.length (flagged_by_scheduled env w)
         /\ listed = map summary (flagged_by_scheduled env w)
         /\ timestamp = now env
         /\ (removed <= safety_limit)%nat
         /\ exists prod, get_prod_locations env = Ok prod /\ prod <> [].
Proof.
  destruct (get_prod_locations env) as [prod|msg] eqn:Hprod.
  - destruct prod as [|p prod].
    + exists []. unfold automated_container_cleanup. rewrite Hprod.
      rewrite app_nil_r. split; [reflexivity|].
      intros checked removed listed timestamp [].
    + destruct (safety_limit <? List.length (flagged_by_scheduled env w))%nat
        eqn:Hlimit.
      * exists []. rewrite app_nil_r. split.
        -- unfold automated_container_cleanup, flagged_by_scheduled in *.
           rewrite Hprod in *.
           destruct (flag_requests flagged_entry env (p :: prod)
                       (select_active_requests w)); [discriminate|].
           now rewrite Hlimit.
        -- intros checked removed listed timestamp [].
      * apply Nat.ltb_ge in Hlimit.
        eexists. split.
        -- apply (completion_event_shape env w (p :: prod) Hprod);
             [discriminate|exact Hlimit].
        -- intros checked removed listed timestamp [Heq | []].
           inversion Heq; subst. repeat split; try assumption.
           exists (p :: prod). split; [reflexivity|discriminate].
  - exists [auto_cleanup_error msg (now env)].
    unfold automated_container_cleanup. rewrite Hprod. simpl.
    split; [reflexivity|].
    intros checked removed listed timestamp [Heq | []]. discriminate.
Qed.

(** ** Manual deletion: what goes and what is recorded *)

Lemma find_none_iff {A : Type} (f : A -> bool) (l : list A) :
  (forall x, In x l -> f x = false) -> find f l = None.
Proof.
  induction l as [|x l IH]; intros H; simpl; [reflexivity|].
  rewrite (H x (or_introl eq_refl)). apply IH. intros y Hy. apply H. now right.
Qed.

Lemma filter_partition_length {A : Type} (f : A -> bool) (l : list A) :
  (List.length l
   = List.length (filter (fun x => negb (f x)) l) + List.length (filter f l))%nat.
Proof.
  induction l as [|x l IH]; simpl; [reflexivity|].
  destruct (f x); simpl; lia.
Qed.

(** X11. When no request in the active table has the serial number asked
    for, [delete_request] changes nothing: neither table changes and no
    history record is attempted. Its answer is then not the success answer
    but status 404 (or 500). *)
Theorem delete_request_not_found (env : Env) (serial_no : string) (w : World) :
  (forall r, In r (REQUESTS w) -> Requests.serial_no r <> serial_no) ->
  snd (delete_request env serial_no w) = w
  /\ exists status_code message,
       fst (delete_request env serial_no w) = respond status_code message
       /\ (status_code = 404 \/ status_code = 500).
Proof.
  intros Hnone. unfold delete_request. rewrite find_none_iff.
  - split; [reflexivity|]. exists 404, "Request not found". now split; [|left].
  - intros r Hr. unfold has_serial_no. apply String.eqb_neq. now apply Hnone.
Qed.

Lemma delete_request_not_found_witness :
  snd (delete_request healthy_env "S9999" mixed_requests) = mixed_requests
  /\ exists status_code message,
       fst (delete_request healthy_env "S9999" mixed_requests)
       = respond status_code message
       /\ (status_code = 404 \/ status_code = 500).
Proof.
  apply (delete_request_not_found healthy_env "S9999" mixed_requests).
  intros r Hr. simpl in Hr.
  destruct Hr as [<- | [<- | [<- | [<- | []]]]]; discriminate.
Defined.

Lemma delete_request_requests (env : Env) (serial_no : string) (w : World) :
  fst (delete_request env serial_no w)
  = respond 200 "Request deleted successfully" ->
  REQUESTS (snd (delete_request env serial_no w))
  = filter (fun r => negb (has_serial_no serial_no r)) (REQUESTS w).
Proof.
  unfold delete_request, log_request_to_history, execute.
  destruct (find (has_serial_no serial_no) (REQUESTS w)); [|discriminate].
  destruct (storage_fault env (InsertHistory _));
    destruct (storage_fault env (DeleteRequestBySerial serial_no));
    simpl; try discriminate; reflexivity.
Qed.

(** X12. When [delete_request] answers that the request was deleted, every
    request with that serial number is gone from the active table and every
    other request is still there, in the old order; at least one request
    went, but the history table gained at most one record, however many
    requests were stored under the serial number. *)
Theorem delete_request_removes_every_match (env : Env) (serial_no : string)
  (w : World) :
  fst (delete_request env serial_no w)
  = respond 200 "Request deleted successfully" ->
  let w' := snd (delete_request env serial_no w) in
  REQUESTS w' = filter (fun r => negb (has_serial_no serial_no r)) (REQUESTS w)
  /\ (List.length (REQUESTS w)
      = List.length (REQUESTS w')
        + List.length (filter (has_serial_no serial_no) (REQUESTS w)))%nat
  /\ (1 <= List.length (filter (has_serial_no serial_no) (REQUESTS w)))%nat
  /\ (List.length (REQUESTS_HISTORY w')
      <= List.length (REQUESTS_HISTORY w) + 1)%nat.
Proof.
  unfold delete_request, log_request_to_history, execute.
  destruct (find (has_serial_no serial_no) (REQUESTS w)) as [found|] eqn:Hfind;
    [|discriminate].
  assert (Hone : (1 <= List.length (filter (has_serial_no serial_no)
                                      (REQUESTS w)))%nat).
  { apply find_some in Hfind. destruct Hfind as [Hin Hs].
    assert (Hf : In found (filter (has_serial_no serial_no) (REQUESTS w)))
      by (apply filter_In; now split).
    destruct (filter (has_serial_no serial_no) (REQUESTS w));
      [contradiction|simpl; lia]. }
  destruct (storage_fault env (InsertHistory _));
    destruct (storage_fault env (DeleteRequestBySerial serial_no));
    simpl; try discriminate; intros _;
    (split; [reflexivity|]); (split; [apply filter_partition_length|]);
    (split; [exact Hone|]); rewrite ?length_app; simpl; lia.
Qed.

Lemma delete_request_removes_every_match_witness :
  let w' := snd (delete_request healthy_env "S1001" twice_requested) in
  REQUESTS w'
  = filter (fun r => negb (has_serial_no "S1001" r)) (REQUESTS twice_requested)
  /\ (List.length (REQUESTS twice_requested)
      = List.length (REQUESTS w')
        + List.length (filter (has_serial_no "S1001")
                         (REQUESTS twice_requested)))%nat
  /\ (1 <= List.length (filter (has_serial_no "S1001")
                          (REQUESTS twice_requested)))%nat
  /\ (List.length (REQUESTS_HISTORY w')
      <= List.length (REQUESTS_HISTORY twice_requested) + 1)%nat.
Proof.
  apply (delete_request_removes_every_match healthy_env "S1001" twice_requested).
  reflexivity.
Defined.

(** ** Submission: what is stored *)

Lemma request_serial_no_stored (env : Env) (part_no serial_no : string)
  (data : submission) (g : Globals) (w : World) :
  fst (fst (request_serial_no env part_no serial_no data g w))
  = respond 200 "Success" ->
  REQUESTS (snd (request_serial_no env part_no serial_no data g w))
  = REQUESTS w ++ [submitted_row env part_no serial_no data g].
Proof.
  unfold request_serial_no, insert_request, execute.
  fold (submitted_row env part_no serial_no data g).
  destruct (storage_fault env
              (InsertRequest (submitted_row env part_no serial_no data g)));
    [discriminate|].
  destruct (violates_key _ w); [discriminate|reflexivity].
Qed.

(** X13. [request_serial_no] stores the request under the current value of
    the counter and moves the counter by one exactly when the insert goes
    through and no request is stored under that id; the history table is
    not touched. Otherwise it answers with the message [Error], still under
    status 200, and changes neither the counter nor the tables. *)
Theorem request_serial_no_outcome (env : Env) (part_no serial_no : string)
  (data : submission) (g : Globals) (w : World) :
  let out := request_serial_no env part_no serial_no data g w in
  let row := submitted_row env part_no serial_no data g in
  if goes_through env (InsertRequest row)
     && negb (existsb (has_req_id (req_id g)) (REQUESTS w))
  then fst (fst out) = respond 200 "Success"
       /\ req_id (snd (fst out)) = req_id g + 1
       /\ REQUESTS (snd out) = REQUESTS w ++ [row]
       /\ REQUESTS_HISTORY (snd out) = REQUESTS_HISTORY w
  else fst (fst out) = respond 200 "Error"
       /\ snd (fst out) = g /\ snd out = w.
Proof.
  simpl. unfold request_serial_no, insert_request, execute, goes_through.
  fold (submitted_row env part_no serial_no data g).
  destruct (storage_fault env
              (InsertRequest (submitted_row env part_no serial_no data g)));
    [simpl; auto|].
  unfold violates_key. cbn [Requests.req_id submitted_row].
  destruct (existsb (has_req_id (req_id g)) (REQUESTS w)); simpl; auto.
Qed.

(** X14. The request time of a stored request is a naive value that stands
    for the same UTC instant as the submitted time, whatever offset that
    carried; so the duration later written to history for the request is
    the span from the submitted instant to the fulfilled time. When the
    submitted time does not parse, the current UTC time is stored. *)
Theorem submitted_time_is_kept_in_utc (env : Env) (part_no serial_no : string)
  (data : submission) (g : Globals) :
  let row := submitted_row env part_no serial_no data g in
  tzinfo (Requests.req_time row) = None
  /\ (forall t, data_req_time data = Some t ->
        req_time_utc (Requests.req_time row) = astimezone_utc_naive t
        /\ forall env' ft loc,
             History.fulfillment_duration_minutes
               (history_of env' ft (flagged_entry row loc))
             = duration_minutes (utcnow env' (req_id g))
                 (astimezone_utc_naive t))
  /\ (data_req_time data = None ->
        wall (Requests.req_time row) = utcnow env (req_id g)).
Proof.
  simpl. unfold submitted_req_time.
  destruct (data_req_time data) as [t|]; simpl.
  - split; [reflexivity|]. split; [|discriminate].
    intros t' H. inversion H; subst t'.
    assert (Hutc : req_time_utc t = astimezone_utc_naive t).
    { unfold req_time_utc, astimezone_utc_naive. now destruct (tzinfo t). }
    split; [exact Hutc|]. intros env' ft loc.
    unfold history_of, history_row. simpl. now rewrite Hutc.
  - split; [reflexivity|]. split; [discriminate|reflexivity].
Qed.

Lemma submitted_time_is_kept_in_utc_witness :
  req_time_utc
    (Requests.req_time
       (submitted_row healthy_env "P-100" "S1001" aware_submission startup))
  = 0
  /\ History.fulfillment_duration_minutes
       (history_of healthy_env "auto_cleanup"
          (flagged_entry
             (submitted_row healthy_env "P-100" "S1001" aware_submission startup)
             "PROD-A"))
     = 10.
Proof.
  destruct (submitted_time_is_kept_in_utc healthy_env "P-100" "S1001"
              aware_submission startup) as (_ & Hsome & _).
  destruct (Hsome (mk_datetime 7200000000 (Some 7200000000)) eq_refl)
    as [Hutc Hduration].
  split; [exact Hutc|]. rewrite Hduration. reflexivity.
Defined.

(** ** Master units *)

Lemma listing_flag (env : Env) (master_unit : string) (w : World)
  (c : master_unit_container) (b : bool) :
  In (c, b) (get_containers_by_master_unit env master_unit w) ->
  b = if requests_read_fails env then false
      else py_in (Serial_No c) (map Requests.serial_no (REQUESTS w)).
Proof.
  unfold get_containers_by_master_unit. intros H.
  apply filter_In in H. destruct H as [H _].
  apply in_map_iff in H. destruct H as (c' & Heq & _).
  now inversion Heq.
Qed.

Lemma all_flagged_none_available (l : list (master_unit_container * bool)) :
  forallb snd l = true -> filter (fun c => negb (snd c)) l = [].
Proof.
  induction l as [|x l IH]; simpl; [reflexivity|].
  intros H. apply andb_true_iff in H. destruct H as [-> Hrest].
  simpl. now apply IH.
Qed.

(** X15. [request_master_unit] answers 404 when the listing of the master
    unit is empty and 400 when every listed container is already requested;
    in both cases nothing is stored and the counter stays. *)
Theorem request_master_unit_rejections (env : Env) (master_unit : string)
  (data : submission) (g : Globals) (w : World) :
  let containers := get_containers_by_master_unit env master_unit w in
  (containers = [] ->
   request_master_unit env master_unit data g w
   = (respond 404 "No containers found in master unit", g, w))
  /\ (containers <> [] -> forallb snd containers = true ->
      request_master_unit env master_unit data g w
      = (respond 400 "All containers already requested", g, w)).
Proof.
  simpl. unfold request_master_unit.
  destruct (get_containers_by_master_unit env master_unit w) as [|p l] eqn:Hl.
  - split; [reflexivity|]. intros H. now contradiction H.
  - split; [discriminate|]. intros _ Hall.
    rewrite (all_flagged_none_available (p :: l) Hall). reflexivity.
Qed.

Lemma request_master_unit_rejections_witness :
  request_master_unit healthy_env "MU7" sample_submission startup mixed_requests
  = (respond 404 "No containers found in master unit", startup, mixed_requests).
Proof.
  destruct (request_master_unit_rejections healthy_env "MU7" sample_submission
              startup mixed_requests) as [H404 _].
  apply H404. reflexivity.
Defined.

(** X16. A request for a master unit is stored under the serial number
    [MU-] followed by the unit's number, so it does not mark the unit's
    containers as requested: unless a container bears that very serial
    number, the listing of the unit is the same after the request as
    before, and the same request is accepted again. *)
Theorem master_unit_request_marks_nothing (env : Env) (master_unit : string)
  (data : submission) (g : Globals) (w : World) :
  (forall c, In c (erp_master_unit env master_unit) ->
             Serial_No c <> String.append "MU-" master_unit) ->
  get_containers_by_master_unit env master_unit
    (snd (request_master_unit env master_unit data g w))
  = get_containers_by_master_unit env master_unit w.
Proof.
  intros Hfresh.
  assert (Hsame : forall w',
            (REQUESTS w' = REQUESTS w
             \/ exists row, REQUESTS w' = REQUESTS w ++ [row]
                            /\ Requests.serial_no row
                               = String.append "MU-" master_unit) ->
            get_containers_by_master_unit env master_unit w'
            = get_containers_by_master_unit env master_unit w).
  { intros w' [Hw | (row & Hw & Hs)]; unfold get_containers_by_master_unit;
      rewrite Hw; [reflexivity|].
    f_equal. apply map_ext_in. intros c Hc. f_equal.
    destruct (requests_read_fails env); [reflexivity|].
    rewrite map_app. unfold py_in. rewrite existsb_app. simpl.
    rewrite Hs, orb_false_r.
    destruct (String.eqb_spec (Serial_No c) (String.append "MU-" master_unit))
      as [Heq|_]; [now apply Hfresh in Heq|apply orb_false_r]. }
  apply Hsame. unfold request_master_unit.
  destruct (get_containers_by_master_unit env master_unit w); [now left|].
  destruct (map fst (filter (fun c => negb (snd c)) (p :: l))); [now left|].
  unfold insert_request, execute.
  destruct (storage_fault env (InsertRequest _)); [now left|].
  destruct (violates_key _ w); [now left|].
  right. eexists. split; reflexivity.
Qed.

Lemma master_unit_request_marks_nothing_witness :
  fst (fst (request_master_unit master_unit_env "MU7" sample_submission startup
              (world_of [])))
  = respond 200 "Success"
  /\ get_containers_by_master_unit master_unit_env "MU7"
       (snd (request_master_unit master_unit_env "MU7" sample_submission
               startup (world_of [])))
     = get_containers_by_master_unit master_unit_env "MU7" (world_of []).
Proof.
  split; [reflexivity|].
  apply (master_unit_request_marks_nothing master_unit_env "MU7"
           sample_submission startup (world_of [])).
  intros c Hc. simpl in Hc.
  destruct Hc as [<- | [<- | [<- | []]]]; discriminate.
Defined.

(** X17. After [request_serial_no] has stored a request, every listing of a
    master unit that gets to read the active table marks the containers
    with that serial number as requested; after [delete_request] has
    deleted the serial number, no listing marks them. *)
Theorem listing_follows_requests (env env' : Env) (serial_no : string)
  (w : World) (master_unit : string) (c : master_unit_container) (b : bool) :
  Serial_No c = serial_no ->
  (forall part_no data g,
     fst (fst (request_serial_no env part_no serial_no data g w))
     = respond 200 "Success" ->
     requests_read_fails env' = false ->
     In (c, b)
       (get_containers_by_master_unit env' master_unit
          (snd (request_serial_no env part_no serial_no data g w))) ->
     b = true)
  /\ (fst (delete_request env serial_no w)
      = respond 200 "Request deleted successfully" ->
      In (c, b)
        (get_containers_by_master_unit env' master_unit
           (snd (delete_request env serial_no w))) ->
      b = false).
Proof.
  intros Hc. split.
  - intros part_no data g Hok Hread Hin. apply listing_flag in Hin.
    rewrite Hread in Hin. subst b.
    rewrite (request_serial_no_stored env part_no serial_no data g w Hok).
    rewrite map_app. unfold py_in. rewrite existsb_app. simpl.
    rewrite Hc, String.eqb_refl. now rewrite orb_true_r.
  - intros Hok Hin. apply listing_flag in Hin. subst b.
    destruct (requests_read_fails env'); [reflexivity|].
    rewrite (delete_request_requests env serial_no w Hok).
    unfold py_in. apply not_true_is_false. intros Hex.
    apply existsb_exists in Hex. destruct Hex as (s & Hs & Heq).
    apply in_map_iff in Hs. destruct Hs as (r & <- & Hr).
    apply filter_In in Hr. destruct Hr as [_ Hr].
    apply String.eqb_eq in Heq. unfold has_serial_no in Hr.
    rewrite <- Heq, Hc, String.eqb_refl in Hr. discriminate.
Qed.

Lemma listing_follows_requests_witness :
  ~ In (mk_mu_container "C1" "P-100" 5%Q "WH-1", false)
      (get_containers_by_master_unit master_unit_env "MU7"
         (snd (request_serial_no healthy_env "P-100" "C1" sample_submission
                 startup (world_of []))))
  /\ ~ In (mk_mu_container "C1" "P-100" 5%Q "WH-1", true)
         (get_containers_by_master_unit master_unit_env "MU7"
            (snd (delete_request healthy_env "C1"
                    (world_of [pick_up 0 "C1"])))).
Proof.
  split; intros Hin.
  - destruct (listing_follows_requests healthy_env master_unit_env "C1"
                (world_of []) "MU7"
                (mk_mu_container "C1" "P-100" 5%Q "WH-1") false eq_refl)
      as [Hmarked _].
    specialize (Hmarked "P-100" sample_submission startup eq_refl eq_refl Hin).
    discriminate.
  - destruct (listing_follows_requests healthy_env master_unit_env "C1"
                (world_of [pick_up 0 "C1"]) "MU7"
                (mk_mu_container "C1" "P-100" 5%Q "WH-1") true eq_refl)
      as [_ Hunmarked].
    specialize (Hunmarked eq_refl Hin). discriminate.
Defined.

(** ** The socket registry: delivery and eviction *)

Lemma send_loop_spec (send_fails : WebSockets.connection -> bool)
  (message : notification) (connections : list WebSockets.connection) :
  WebSockets.send_loop send_fails message connections
  = (map (fun c => (c, message))
       (filter (fun c => negb (send_fails c)) connections),
     filter send_fails connections).
Proof.
  induction connections as [|c l IH]; simpl; [reflexivity|].
  rewrite IH. now destruct (send_fails c).
Qed.

Lemma remove_first_dead (send_fails : WebSockets.connection -> bool)
  (x : WebSockets.connection) (pre l : list WebSockets.connection) :
  (forall y, In y pre -> send_fails y = false) -> send_fails x = true ->
  WebSockets.remove x (pre ++ x :: l) = pre ++ l.
Proof.
  intros Hpre Hx. induction pre as [|y pre IH]; simpl.
  - now rewrite Nat.eqb_refl.
  - destruct (Nat.eqb_spec x y) as [->|_].
    + rewrite (Hpre y (or_introl eq_refl)) in Hx. discriminate.
    + f_equal. apply IH. intros z Hz. apply Hpre. now right.
Qed.

Lemma remove_all_dead (send_fails : WebSockets.connection -> bool)
  (l pre : list WebSockets.connection) :
  (forall y, In y pre -> send_fails y = false) ->
  fold_left (fun l dead_conn => WebSockets.remove dead_conn l)
    (filter send_fails l) (pre ++ l)
  = pre ++ filter (fun c => negb (send_fails c)) l.
Proof.
  revert pre. induction l as [|x l IH]; intros pre Hpre; simpl; [reflexivity|].
  destruct (send_fails x) eqn:Hx; simpl.
  - rewrite (remove_first_dead send_fails x pre l Hpre Hx). now apply IH.
  - change (pre ++ x :: l) with (pre ++ [x] ++ l). rewrite app_assoc.
    rewrite IH.
    + now rewrite <- app_assoc.
    + intros y Hy. apply in_app_or in Hy. destruct Hy as [Hy | [<- | []]];
        auto.
Qed.

(** X18. A broadcast hands the message to every registered client whose
    send does not fail, once for each place the client has in the registry
    and in the registry's order; a failing client does not keep the clients
    after it from being served. *)
Theorem broadcast_reaches_live_clients
  (send_fails : WebSockets.connection -> bool) (n : notification)
  (st : WebSockets.state) :
  WebSockets.received (WebSockets.send_cleanup_notification send_fails n st)
  = WebSockets.received st
    ++ map (fun c => (c, n))
         (filter (fun c => negb (send_fails c))
            (WebSockets.active_connections st)).
Proof.
  unfold WebSockets.send_cleanup_notification.
  destruct (WebSockets.active_connections st) as [|c l] eqn:Hl.
  - simpl. now rewrite app_nil_r.
  - rewrite send_loop_spec. reflexivity.
Qed.

(** X19. After a broadcast the registry holds exactly the clients whose send
    did not fail, in their old order: every client whose send failed is
    evicted, from every place it had, and no other client is. *)
Theorem broadcast_evicts_dead_clients
  (send_fails : WebSockets.connection -> bool) (n : notification)
  (st : WebSockets.state) :
  WebSockets.active_connections
    (WebSockets.send_cleanup_notification send_fails n st)
  = filter (fun c => negb (send_fails c)) (WebSockets.active_connections st).
Proof.
  unfold WebSockets.send_cleanup_notification.
  destruct (WebSockets.active_connections st) as [|c l] eqn:Hl.
  - rewrite Hl. reflexivity.
  - rewrite send_loop_spec. cbn [WebSockets.active_connections].
    apply (remove_all_dead send_fails (c :: l) []). intros y [].
Qed.

(** ** The connection pool: retries *)



(** ** The history sweep: retention *)

Lemma none_past_retention (getdate : Z) (hs : list History.row) :
  List.length (filter (past_retention getdate) hs) = 0%nat ->
  forall h, In h hs -> past_retention getdate h = false.
Proof.
  intros Hnone h Hin. destruct (past_retention getdate h) eqn:Hp; [|reflexivity].
  assert (Hf : In h (filter (past_retention getdate) hs))
    by (apply filter_In; now split).
  destruct (filter (past_retention getdate) hs); [contradiction|discriminate].
Qed.

(** X21. After a sweep in which nothing raised, every record left in the
    history table was there before and was fulfilled no more than thirty
    days before the count was taken, and every record fulfilled no more
    than thirty days before the delete ran is still there; the active table
    is not touched. The clock does not run backwards between the count and
    the delete. *)
Theorem history_sweep_retention (getdate_count getdate_delete : Z) (w : World) :
  getdate_count <= getdate_delete ->
  let w' := automated_history_cleanup false getdate_count getdate_delete w in
  (forall h, In h (REQUESTS_HISTORY w') ->
     In h (REQUESTS_HISTORY w)
     /\ getdate_count - thirty_days <= History.fulfilled_time h)
  /\ (forall h, In h (REQUESTS_HISTORY w) ->
        getdate_delete - thirty_days <= History.fulfilled_time h ->
        In h (REQUESTS_HISTORY w'))
  /\ REQUESTS w' = REQUESTS w.
Proof.
  intros Hclock. simpl. unfold automated_history_cleanup.
  destruct (0 <? List.length (filter (past_retention getdate_count)
                                (REQUESTS_HISTORY w)))%nat eqn:Hcount; simpl.
  - split; [|split; [|reflexivity]].
    + intros h Hh. apply filter_In in Hh. destruct Hh as [Hin Hp].
      split; [exact Hin|].
      apply negb_true_iff in Hp. unfold past_retention in Hp.
      apply Z.ltb_ge in Hp. lia.
    + intros h Hin Hrecent. apply filter_In. split; [exact Hin|].
      apply negb_true_iff. unfold past_retention. apply Z.ltb_ge. lia.
  - apply Nat.ltb_ge in Hcount.
    assert (Hzero : List.length (filter (past_retention getdate_count)
                                   (REQUESTS_HISTORY w)) = 0%nat) by lia.
    split; [|split; [|reflexivity]].
    + intros h Hh. split; [exact Hh|].
      apply (none_past_retention _ _ Hzero) in Hh.
      unfold past_retention in Hh. apply Z.ltb_ge in Hh. lia.
    + intros h Hin _. exact Hin.
Qed.

Lemma history_sweep_retention_witness :
  REQUESTS_HISTORY
    (automated_history_cleanup false (50 * one_day) (50 * one_day) aged_history)
  = [sample_history_row 2 (40 * one_day)].
Proof.
  destruct (history_sweep_retention (50 * one_day) (50 * one_day) aged_history
              (Z.le_refl _)) as (Hleft & Hkept & _).
  assert (Hin : In (sample_history_row 2 (40 * one_day))
                  (REQUESTS_HISTORY
                     (automated_history_cleanup false (50 * one_day)
                        (50 * one_day) aged_history))).
  { apply Hkept; [simpl; tauto|vm_compute; discriminate]. }
  vm_compute. reflexivity.
Defined.

(** X22. A sweep run again, with the clock where it was, removes nothing
    more. *)
Theorem history_sweep_twice (getdate_count getdate_delete : Z) (w : World) :
  getdate_count <= getdate_delete ->
  automated_history_cleanup false getdate_count getdate_delete
    (automated_history_cleanup false getdate_count getdate_delete w)
  = automated_history_cleanup false getdate_count getdate_delete w.
Proof.
  intros Hclock.
  set (w' := automated_history_cleanup false getdate_count getdate_delete w).
  assert (Hrecent : forall h, In h (REQUESTS_HISTORY w') ->
                              past_retention getdate_count h = false).
  { intros h Hh. unfold w', automated_history_cleanup in Hh.
    destruct (0 <? List.length (filter (past_retention getdate_count)
                                  (REQUESTS_HISTORY w)))%nat eqn:Hcount;
      simpl in Hh.
    - apply filter_In in Hh. destruct Hh as [_ Hp].
      apply negb_true_iff in Hp. unfold past_retention in *.
      apply Z.ltb_ge in Hp. apply Z.ltb_ge. lia.
    - apply Nat.ltb_ge in Hcount.
      apply (none_past_retention getdate_count (REQUESTS_HISTORY w)); [lia|auto]. }
  unfold automated_history_cleanup at 1.
  assert (Hnone : filter (past_retention getdate_count) (REQUESTS_HISTORY w') = []).
  { induction (REQUESTS_HISTORY w') as [|h hs IH]; simpl; [reflexivity|].
    rewrite (Hrecent h (or_introl eq_refl)). apply IH.
    intros h' Hh'. apply Hrecent. now right. }
  now rewrite Hnone.
Qed.

Lemma history_sweep_twice_witness :
  automated_history_cleanup false (50 * one_day) (50 * one_day)
    (automated_history_cleanup false (50 * one_day) (50 * one_day) aged_history)
  = automated_history_cleanup false (50 * one_day) (50 * one_day) aged_history.
Proof.
  apply (history_sweep_twice (50 * one_day) (50 * one_day) aged_history).
  apply Z.le_refl.
Defined.

(** ** Clearing the history: the answers *)

(** X23. [clear_all_history] answers with success exactly when the history
    table held at least one record and neither the connection, the count
    nor the delete raised; the reported [deleted_count] is the number of
    records the table held. When nothing raised, the table is then empty.
    When the commit raised, the answer is the success answer all the same,
    although the delete was not committed and the table holds what it
    held. In every other case, a history table that was already empty
    included, the answer is the error of status 500 and nothing changes;
    the message that the history was already empty is never the answer.
    The active table is untouched throughout. *)
Theorem clear_all_history_answers (fault : clear_fault) (w : World) :
  let out := clear_all_history fault w in
  REQUESTS (snd out) = REQUESTS w
  /\ ((exists c, fst out = Ok c)
      <-> REQUESTS_HISTORY w <> []
          /\ (fault = NothingRaises \/ exists msg, fault = CommitRaises msg))
  /\ (forall c, fst out = Ok c ->
        deleted_count c = List.length (REQUESTS_HISTORY w)
        /\ cleared_message c <> "History was already empty"
        /\ (fault = NothingRaises -> REQUESTS_HISTORY (snd out) = [])
        /\ (forall msg, fault = CommitRaises msg -> snd out = w))
  /\ (forall msg, fst out = Raised msg -> snd out = w).
Proof.
  simpl. unfold clear_all_history.
  destruct fault as [|msg|msg|msg|msg];
    destruct (REQUESTS_HISTORY w) as [|h hs] eqn:Hh; simpl;
    (split; [reflexivity|]); (split; [|split]);
    try (intros c H; discriminate H);
    try (intros msg' H; reflexivity);
    try (intros msg' H; discriminate H);
    try (split;
         [intros (c & H); discriminate H
         |intros [Hne [Hf | (msg' & Hf)]];
          try discriminate Hf; now contradiction Hne]).
  - split; [intros _|intros _; eexists; reflexivity].
    split; [discriminate|now left].
  - intros c H. inversion H; subst. simpl.
    repeat split; try discriminate.
  - split; [intros _|intros _; eexists; reflexivity].
    split; [discriminate|right; now exists msg].
  - intros c H. inversion H; subst. simpl.
    repeat split; try discriminate.
Qed.

(** ** The history pages: arithmetic and coverage *)

Lemma ceil_div_lt (page limit total : Z) :
  1 <= limit -> 0 <= total ->
  (page < (total + limit - 1) / limit <-> page * limit < total).
Proof.
  intros Hl Ht.
  pose proof (Z.div_mod (total + limit - 1) limit ltac:(lia)) as Hdm.
  pose proof (Z.mod_pos_bound (total + limit - 1) limit ltac:(lia)) as Hr.
  split; intros H; nia.
Qed.



(** X24. Whatever page and limit are asked for, [get_history] works with a
    limit between 1 and 500 (50 when the one asked for is outside) and a
    page of at least 1, and returns at most that many records.
    [total_records] is the number of matching records; [has_next] is true
    exactly when records remain beyond the page, that is when
    [current_page * limit] is less than [total_records], and [has_prev]
    exactly when the page is not the first. *)
Theorem get_history_page_bounds {A B : Type} (convert : A -> B)
  (select : list where_clause -> list A) (page limit : Z)
  (serial_no part_no request_type fulfillment_type : option string)
  (start_date end_date : option (option datetime)) :
  let out :=
    get_history convert select page limit serial_no part_no request_type
      fulfillment_type start_date end_date in
  let p := snd out in
  1 <= page_limit p <= 500
  /\ (1 <= limit <= 500 -> page_limit p = limit)
  /\ 1 <= current_page p
  /\ (1 <= page -> current_page p = page)
  /\ Z.of_nat (List.length (fst out)) <= page_limit p
  /\ total_records p
     = Z.of_nat
         (List.length
            (select (where_clauses serial_no part_no request_type
                       fulfillment_type start_date end_date)))
  /\ (has_next p = true <-> current_page p * page_limit p < total_records p)
  /\ (has_prev p = true <-> 1 < current_page p).
Proof.
  simpl.
  set (l := if (limit <? 1)%Z || (500 <? limit)%Z then 50 else limit).
  set (pg := if (page <? 1)%Z then 1 else page).
  assert (Hl : 1 <= l <= 500).
  { unfold l. destruct (Z.ltb_spec limit 1); simpl; [lia|].
    destruct (Z.ltb_spec 500 limit); lia. }
  assert (Hpg : 1 <= pg) by (unfold pg; destruct (Z.ltb_spec page 1); lia).
  split; [exact Hl|]. split; [|split; [exact Hpg|split; [|split; [|split]]]].
  - intros Hin. unfold l. destruct (Z.ltb_spec limit 1); simpl; [lia|].
    destruct (Z.ltb_spec 500 limit); lia.
  - intros Hp. unfold pg. destruct (Z.ltb_spec page 1); lia.
  - rewrite length_map, length_firstn. lia.
  - reflexivity.
  - split.
    + rewrite Z.ltb_lt. apply ceil_div_lt; lia.
    + apply Z.ltb_lt.
Qed.


(** ** Shifts *)

Lemma czech_hour_range (prague_utcoffset : Z -> Z) (dt : datetime) :
  0 <= czech_hour prague_utcoffset dt < 24.
Proof. unfold czech_hour. apply Z.mod_pos_bound. lia. Qed.

(** X26. The three shifts are blocks of eight hours of the Prague wall
    clock that follow one another in the order morning, evening, night: as
    long as the offset of Prague time does not change in between, a time
    eight hours later falls into the next shift. *)
Theorem shift_eight_hours_later (prague_utcoffset : Z -> Z) (dt : datetime) :
  prague_utcoffset (astimezone_utc_naive (eight_hours_later dt))
  = prague_utcoffset (astimezone_utc_naive dt) ->
  get_shift_from_czech_datetime prague_utcoffset (Some (eight_hours_later dt))
  = next_shift (get_shift_from_czech_datetime prague_utcoffset (Some dt)).
Proof.
  intros Hoffset.
  pose proof (czech_hour_range prague_utcoffset dt) as Hrange.
  assert (Hlater : czech_hour prague_utcoffset (eight_hours_later dt)
                   = (czech_hour prague_utcoffset dt + 8) mod 24).
  { unfold czech_hour. rewrite Hoffset.
    assert (Hutc : astimezone_utc_naive (eight_hours_later dt)
                   = astimezone_utc_naive dt + 8 * microseconds_per_hour).
    { unfold astimezone_utc_naive, eight_hours_later. simpl.
      destruct (tzinfo dt); lia. }
    rewrite Hutc.
    replace (astimezone_utc_naive dt + 8 * microseconds_per_hour
             + prague_utcoffset (astimezone_utc_naive dt))
      with (astimezone_utc_naive dt
            + prague_utcoffset (astimezone_utc_naive dt)
            + 8 * microseconds_per_hour) by lia.
    rewrite Z.div_add by (unfold microseconds_per_hour; lia).
    now rewrite Zplus_mod_idemp_l. }
  unfold get_shift_from_czech_datetime. rewrite Hlater.
  set (h := czech_hour prague_utcoffset dt) in *.
  assert (Hcases : (h + 8) mod 24 = h + 8 /\ h < 16
                   \/ (h + 8) mod 24 = h - 16 /\ 16 <= h).
  { destruct (Z_lt_le_dec h 16).
    - left. split; [apply Z.mod_small; lia|lia].
    - right. split; [|lia]. symmetry.
      apply (Z.mod_unique (h + 8) 24 1); lia. }
  destruct Hcases as [[-> Hlt] | [-> Hge]];
    destruct (Z.leb_spec 6 h); destruct (Z.ltb_spec h 14);
    destruct (Z.leb_spec 14 h); destruct (Z.ltb_spec h 22);
    destruct (Z.leb_spec 6 (h + 8)); destruct (Z.ltb_spec (h + 8) 14);
    destruct (Z.leb_spec 14 (h + 8)); destruct (Z.ltb_spec (h + 8) 22);
    destruct (Z.leb_spec 6 (h - 16)); destruct (Z.ltb_spec (h - 16) 14);
    destruct (Z.leb_spec 14 (h - 16)); destruct (Z.ltb_spec (h - 16) 22);
    simpl; try reflexivity; lia.
Qed.

Lemma shift_eight_hours_later_witness :
  get_shift_from_czech_datetime winter_offset
    (Some (eight_hours_later (naive (21 * microseconds_per_hour))))
  = "Morning"
  /\ get_shift_from_czech_datetime winter_offset
       (Some (naive (21 * microseconds_per_hour))) = "Night".
Proof.
  split; [|reflexivity].
  rewrite (shift_eight_hours_later winter_offset
             (naive (21 * microseconds_per_hour)) eq_refl).
  reflexivity.
Defined.
